(** * InvestX admin dashboard: the page controller of [src/pages/AdminDashboard.tsx]

    The handlers of the [AdminDashboard] component are embedded as programs
    over the effects they perform (requests to the remote store, toasts,
    console output, [window.confirm], React state setters).  JavaScript
    numbers are IEEE 754 binary64 values, modelled by Rocq's primitive
    floats; strings are modelled by their UTF-8 bytes. *)

From Stdlib Require Import ZArith List String Ascii Bool Lia Floats.
Import ListNotations.
Local Open Scope string_scope.

(** ** The JavaScript built-ins the handlers call *)

Module JS.

Local Open Scope Z_scope.

Definition number := float.

(** [!s] on a string: only the empty string is falsy. *)
Definition is_empty (s : string) : bool :=
  match s with
  | EmptyString => true
  | String _ _ => false
  end.

(** ToBoolean on a number: [NaN], [+0] and [-0] are falsy. *)
Definition truthy (x : number) : bool := negb (is_nan x || is_zero x).

(** [Math.max(x, y)]: the result is [NaN] as soon as one argument is; [+0]
    counts as larger than [-0]. *)
Definition Math_max (x y : number) : number :=
  if is_nan x then nan
  else if is_nan y then nan
  else if is_zero x && get_sign x && is_zero y && negb (get_sign y) then y
  else if (x <? y)%float then y
  else x.

(** *** Reading numbers from strings *)

Definition is_digit (c : ascii) : bool :=
  let n := nat_of_ascii c in (48 <=? n)%nat && (n <=? 57)%nat.

Definition digit_value (c : ascii) : Z := Z.of_nat (nat_of_ascii c) - 48.

(** Value of a hexadecimal digit, if [c] is one. *)
Definition hex_value (c : ascii) : option Z :=
  let n := nat_of_ascii c in
  if (48 <=? n)%nat && (n <=? 57)%nat then Some (Z.of_nat n - 48)
  else if (65 <=? n)%nat && (n <=? 70)%nat then Some (Z.of_nat n - 55)
  else if (97 <=? n)%nat && (n <=? 102)%nat then Some (Z.of_nat n - 87)
  else None.

(** One-byte white space and line terminators: TAB, LF, VT, FF, CR, SP. *)
Definition is_space (c : ascii) : bool :=
  let n := nat_of_ascii c in
  ((9 <=? n)%nat && (n <=? 13)%nat) || (n =? 32)%nat.

(** The white space of more than one byte: U+00A0 (two bytes) and U+1680,
    U+2000..U+200A, U+2028, U+2029, U+202F, U+205F, U+3000, U+FEFF (three). *)
Definition is_space2 (a b : ascii) : bool :=
  (nat_of_ascii a =? 194)%nat && (nat_of_ascii b =? 160)%nat.

Definition is_space3 (a b c : ascii) : bool :=
  let x := nat_of_ascii a in
  let y := nat_of_ascii b in
  let z := nat_of_ascii c in
  ((x =? 225) && (y =? 154) && (z =? 128))%nat
  || ((x =? 226)%nat && (y =? 128)%nat
      && (((128 <=? z) && (z <=? 138))%nat || (z =? 168)%nat || (z =? 169)%nat
          || (z =? 175)%nat))
  || ((x =? 226) && (y =? 129) && (z =? 159))%nat
  || ((x =? 227) && (y =? 128) && (z =? 128))%nat
  || ((x =? 239) && (y =? 187) && (z =? 191))%nat.

(** TrimString(s, start). *)
Fixpoint trim_start (s : string) : string :=
  match s with
  | String a r =>
      if is_space a then trim_start r
      else
        match r with
        | String b r' =>
            if is_space2 a b then trim_start r'
            else
              match r' with
              | String c r'' => if is_space3 a b c then trim_start r'' else s
              | EmptyString => s
              end
        | EmptyString => s
        end
  | EmptyString => s
  end.

(** The longest run of decimal digits at the head of [s], accumulated on
    [acc]; returns the value, the number of digits read and the rest. *)
Fixpoint digits (s : string) (acc : Z) (len : Z) : Z * Z * string :=
  match s with
  | String c r =>
      if is_digit c then digits r (10 * acc + digit_value c) (len + 1)
      else (acc, len, s)
  | EmptyString => (acc, len, s)
  end.

Fixpoint hex_digits (s : string) (acc : Z) (len : Z) : Z * Z :=
  match s with
  | String c r =>
      match hex_value c with
      | Some d => hex_digits r (16 * acc + d) (len + 1)
      | None => (acc, len)
      end
  | EmptyString => (acc, len)
  end.

(** An optional sign: [true] for [-]; the rest of the string. *)
Definition sign (s : string) : bool * string :=
  match s with
  | String "-" r => (true, r)
  | String "+" r => (false, r)
  | _ => (false, s)
  end.

(** The binary64 value nearest to [m * 10 ^ e] (ties to even), negative
    when [neg]; [m] is not negative. *)
Definition of_decimal (neg : bool) (m e : Z) : number :=
  SF2Prim
    match m with
    | Zpos p =>
        if (0 <=? e)%Z
        then binary_normalize prec emax (cond_Zopp neg (Zpos p * 10 ^ e)) 0 neg
        else
          let '(mz, ez, lz) :=
            SFdiv_core_binary prec emax (Zpos p) 0 (10 ^ (- e)) 0 in
          binary_round_aux prec emax neg mz ez lz
    | _ => S754_zero neg
    end.

(** ExponentPart, optional: [e] or [E], an optional sign and at least one
    digit; 0 when [s] does not start with one. *)
Definition exponent (s : string) : Z :=
  match s with
  | String c r =>
      if ((c =? "e") || (c =? "E"))%char then
        let '(neg, r') := sign r in
        let '(v, len, _) := digits r' 0 0 in
        if (len =? 0)%Z then 0 else if neg then - v else v
      else 0
  | EmptyString => 0
  end.

Definition starts_with (p s : string) : bool := prefix p s.

(** [parseFloat(s)]: the number written by the longest prefix of the
    trimmed string that is a StrDecimalLiteral, [NaN] when there is none. *)
Definition parseFloat (s : string) : number :=
  let '(neg, u) := sign (trim_start s) in
  if starts_with "Infinity" u then (if neg then neg_infinity else infinity)
  else
    let '(i, ilen, r) := digits u 0 0 in
    match r with
    | String "." r' =>
        let '(m, flen, r'') := digits r' i 0 in
        if ((ilen =? 0) && (flen =? 0))%Z then nan
        else of_decimal neg m (exponent r'' - flen)
    | _ =>
        if (ilen =? 0)%Z then nan else of_decimal neg i (exponent r)
    end.

(** [parseInt(s)] with no radix: an optional sign, an optional [0x] or [0X]
    that selects base 16, then the longest run of digits of the base. *)
Definition parseInt (s : string) : number :=
  let '(neg, u) := sign (trim_start s) in
  let '(v, len) :=
    if starts_with "0x" u || starts_with "0X" u
    then hex_digits (substring 2 (length u - 2)%nat u) 0 0
    else let '(v, len, _) := digits u 0 0 in (v, len) in
  if (len =? 0)%Z then nan else of_decimal neg v 0.

End JS.

(** ** The records of the page *)

Module Profile.
Record t := {
  id : string;
  first_name : string;
  last_name : string;
  phone : string;
  referral_code : string;
  wallet_balance : JS.number;
  is_active : bool;
  created_at : string
}.
End Profile.

(** ['daily' | 'stable'] *)
Inductive package_type := daily | stable.

Module InvestmentPackage.
Record t := {
  id : string;
  name : string;
  amount : JS.number;
  return_amount : JS.number;
  duration_days : JS.number;
  max_purchases : JS.number;
  is_active : bool;
  package_type : package_type;
  daily_income : option JS.number
}.
End InvestmentPackage.

Module WithdrawalRequest.
Record t := {
  id : string;
  user_id : string;
  amount : JS.number;
  fee : JS.number;
  net_amount : JS.number;
  status : string;
  requested_at : string;
  profiles : Profile.t
}.
End WithdrawalRequest.

(** The package form buffer: every numeric field is held as the text of its
    input. *)
Module PackageForm.
Record t := {
  name : string;
  amount : string;
  return_amount : string;
  duration_days : string;
  package_type : package_type
}.

(** The value [useState] starts from, and [handlePackageCreate] resets to. *)
Definition initial : t :=
  {| name := ""; amount := ""; return_amount := ""; duration_days := "";
     package_type := stable |}.
End PackageForm.

(** The wallet adjustment form buffer. *)
Module WalletAdjustment.
(** ['add' | 'subtract'] *)
Inductive kind := add | subtract.

Record t := {
  userId : string;
  amount : string;
  type : kind
}.

Definition initial : t := {| userId := ""; amount := ""; type := add |}.
End WalletAdjustment.

(** The state of the component. *)
Record Dashboard := {
  users : list Profile.t;
  packages : list InvestmentPackage.t;
  withdrawals : list WithdrawalRequest.t;
  loading : bool;
  activeTab : string;
  packageForm : PackageForm.t;
  walletAdjustment : WalletAdjustment.t
}.

Definition initial_dashboard : Dashboard :=
  {| users := []; packages := []; withdrawals := []; loading := true;
     activeTab := "users"; packageForm := PackageForm.initial;
     walletAdjustment := WalletAdjustment.initial |}.

(** ** Effects *)

(** An error object: the [error] of a reply, or the reason of a rejected
    promise. *)
Record js_error := { message : string }.

(** What an awaited request of the store resolves to: [{ data, error }]. *)
Record reply (D : Type) := { data : option D; error : option js_error }.
Arguments data {D} _.
Arguments error {D} _.

(** How an awaited promise settles. *)
Inductive settled (D : Type) :=
| Fulfilled (r : reply D)
| Rejected (reason : js_error).
Arguments Fulfilled {D} r.
Arguments Rejected {D} reason.

Inductive table :=
  profiles | investment_packages | withdrawal_requests | user_investments.

(** The objects passed to [.update(...)] by the handlers below:
    [{ wallet_balance }] and [{ status, processed_at }]. *)
Inductive patch :=
| patch_wallet_balance (wallet_balance : JS.number)
| patch_status (status processed_at : string).

(** The object passed to [.insert(...)]. *)
Module NewPackage.
Record t := {
  name : string;
  amount : JS.number;
  return_amount : JS.number;
  duration_days : JS.number;
  max_purchases : JS.number;
  package_type : package_type
}.
End NewPackage.

(** The requests that change the remote store:
    [from(t).update(p).eq(column, value)], [from(t).insert(row)],
    [from(t).delete().eq(column, value)] and [auth.admin.deleteUser(id)]. *)
Inductive mutation :=
| update_eq (t : table) (p : patch) (column value : string)
| insert (t : table) (row : NewPackage.t)
| delete_eq (t : table) (column value : string)
| auth_admin_deleteUser (id : string).

(** What a handler asks of its surroundings and waits for, indexed by the
    type of the answer.  A select is
    [from(table).select(columns).order(order, { ascending })]. *)
Inductive query : Type -> Type :=
| select_profiles (columns order : string) (ascending : bool)
    : query (settled (list Profile.t))
| select_investment_packages (columns order : string) (ascending : bool)
    : query (settled (list InvestmentPackage.t))
| select_withdrawal_requests (columns order : string) (ascending : bool)
    : query (settled (list WithdrawalRequest.t))
| mutate (m : mutation) : query (settled unit)
| window_confirm (question : string) : query bool
| Date_toISOString : query string.

Record Toast := {
  title : string;
  description : string;
  variant : option string
}.

Inductive level := log | warn | error_level.

(** The second argument of a console call. *)
Inductive logged :=
| logged_users (d : option (list Profile.t))
| logged_error (e : option js_error).

(** What a handler tells its surroundings, with nothing to wait for. *)
Inductive command :=
| toast (t : Toast)
| console (l : level) (label : string) (payload : option logged)
| setUsers (v : list Profile.t)
| setPackages (v : list InvestmentPackage.t)
| setWithdrawals (v : list WithdrawalRequest.t)
| setLoading (v : bool)
| setPackageForm (v : PackageForm.t)
| setWalletAdjustment (v : WalletAdjustment.t).

(** ** Programs *)

(** A handler returns, throws, tells something and goes on, or asks
    something and goes on with the answer. *)
Inductive prog (R : Type) : Type :=
| Ret (r : R)
| Throw (e : js_error)
| Tell (c : command) (k : prog R)
| Ask {X : Type} (q : query X) (k : X -> prog R).
Arguments Ret {R} r.
Arguments Throw {R} e.
Arguments Tell {R} c k.
Arguments Ask {R X} q k.

Fixpoint bind {A B} (p : prog A) (f : A -> prog B) : prog B :=
  match p with
  | Ret a => f a
  | Throw e => Throw e
  | Tell c k => Tell c (bind k f)
  | Ask q k => Ask q (fun x => bind (k x) f)
  end.

Declare Scope prog_scope.
Delimit Scope prog_scope with prog.
Notation "x <- p ;; q" := (bind p (fun x => q))
  (at level 61, p at next level, right associativity) : prog_scope.
Notation "p ;; q" := (bind p (fun _ => q))
  (at level 61, right associativity) : prog_scope.
Local Open Scope prog_scope.

Definition tell (c : command) : prog unit := Tell c (Ret tt).

Definition ask {X} (q : query X) : prog X := Ask q Ret.

(** [await] of a request: a rejected promise throws its reason. *)
Definition await {D} (q : query (settled D)) : prog (reply D) :=
  s <- ask q ;;
  match s with
  | Fulfilled r => Ret r
  | Rejected e => Throw e
  end.

(** [try { p } catch (e) { h e }] *)
Fixpoint try_catch {R} (p : prog R) (h : js_error -> prog R) : prog R :=
  match p with
  | Ret r => Ret r
  | Throw e => h e
  | Tell c k => Tell c (try_catch k h)
  | Ask q k => Ask q (fun x => try_catch (k x) h)
  end.

(** [try { p } finally { f }]: [f] runs however [p] completes, and the
    completion of [p] stands when [f] completes normally. *)
Fixpoint try_finally {R} (p : prog R) (f : prog unit) : prog R :=
  match p with
  | Ret r => f ;; Ret r
  | Throw e => f ;; Throw e
  | Tell c k => Tell c (try_finally k f)
  | Ask q k => Ask q (fun x => try_finally (k x) f)
  end.

(** [if (error) throw error;] *)
Definition throw_if_error {D} (r : reply D) : prog unit :=
  match error r with
  | Some e => Throw e
  | None => Ret tt
  end.

(** ** Running a program *)

(** One entry of a trace. *)
Inductive event :=
| Told (c : command)
| Asked {X : Type} (q : query X) (answer : X).

(** The surroundings (the remote store, the administrator in front of the
    confirmation box, the clock): [w i q] is the answer to [q] when it is
    question number [i]. *)
Definition world := nat -> forall X, query X -> X.

Inductive completion (R : Type) :=
| Returned (r : R)
| Thrown (e : js_error).
Arguments Returned {R} r.
Arguments Thrown {R} e.

(** The state setters act on the component state. *)
Definition apply (c : command) (st : Dashboard) : Dashboard :=
  match c with
  | setUsers v =>
      {| users := v; packages := packages st; withdrawals := withdrawals st;
         loading := loading st; activeTab := activeTab st;
         packageForm := packageForm st; walletAdjustment := walletAdjustment st |}
  | setPackages v =>
      {| users := users st; packages := v; withdrawals := withdrawals st;
         loading := loading st; activeTab := activeTab st;
         packageForm := packageForm st; walletAdjustment := walletAdjustment st |}
  | setWithdrawals v =>
      {| users := users st; packages := packages st; withdrawals := v;
         loading := loading st; activeTab := activeTab st;
         packageForm := packageForm st; walletAdjustment := walletAdjustment st |}
  | setLoading v =>
      {| users := users st; packages := packages st; withdrawals := withdrawals st;
         loading := v; activeTab := activeTab st;
         packageForm := packageForm st; walletAdjustment := walletAdjustment st |}
  | setPackageForm v =>
      {| users := users st; packages := packages st; withdrawals := withdrawals st;
         loading := loading st; activeTab := activeTab st;
         packageForm := v; walletAdjustment := walletAdjustment st |}
  | setWalletAdjustment v =>
      {| users := users st; packages := packages st; withdrawals := withdrawals st;
         loading := loading st; activeTab := activeTab st;
         packageForm := packageForm st; walletAdjustment := v |}
  | toast _ | console _ _ _ => st
  end.

Record run_result (R : Type) := {
  trace : list event;
  final : Dashboard;
  outcome : completion R
}.
Arguments trace {R} _.
Arguments final {R} _.
Arguments outcome {R} _.

(** [run w p i st] runs [p] in the world [w] from the component state [st],
    the next question being number [i].  The result has the events of [p]
    in order, the state after them and how [p] completed. *)
Fixpoint run {R} (w : world) (p : prog R) (i : nat) (st : Dashboard)
  : run_result R :=
  match p with
  | Ret r => {| trace := []; final := st; outcome := Returned r |}
  | Throw e => {| trace := []; final := st; outcome := Thrown e |}
  | Tell c k =>
      let r := run w k i (apply c st) in
      {| trace := Told c :: trace r; final := final r; outcome := outcome r |}
  | Ask q k =>
      let x := w i _ q in
      let r := run w (k x) (S i) st in
      {| trace := Asked q x :: trace r; final := final r; outcome := outcome r |}
  end.

(** *** What a trace shows *)

(** The mutations requested, each with how it settled. *)
Definition mutation_of (ev : event) : option (mutation * settled unit) :=
  match ev with
  | Asked q x =>
      match q in query X return X -> option (mutation * settled unit) with
      | mutate m => fun s => Some (m, s)
      | _ => fun _ => None
      end x
  | Told _ => None
  end.

Definition toast_of (ev : event) : option Toast :=
  match ev with
  | Told (toast t) => Some t
  | _ => None
  end.

Fixpoint pick {A B} (f : A -> option B) (l : list A) : list B :=
  match l with
  | [] => []
  | a :: l' =>
      match f a with
      | Some b => b :: pick f l'
      | None => pick f l'
      end
  end.

Definition mutations (tr : list event) : list (mutation * settled unit) :=
  pick mutation_of tr.

Definition toasts (tr : list event) : list Toast := pick toast_of tr.

(** ** The handlers *)

Definition destructive : option string := Some "destructive".

(** [d || []] *)
Definition or_empty {A} (d : option (list A)) : list A :=
  match d with
  | Some l => l
  | None => []
  end.

(** [{ ...pkg, package_type: pkg.package_type, daily_income: pkg.daily_income || 0 }] *)
Definition with_daily_income (pkg : InvestmentPackage.t) : InvestmentPackage.t :=
  {| InvestmentPackage.id := InvestmentPackage.id pkg;
     InvestmentPackage.name := InvestmentPackage.name pkg;
     InvestmentPackage.amount := InvestmentPackage.amount pkg;
     InvestmentPackage.return_amount := InvestmentPackage.return_amount pkg;
     InvestmentPackage.duration_days := InvestmentPackage.duration_days pkg;
     InvestmentPackage.max_purchases := InvestmentPackage.max_purchases pkg;
     InvestmentPackage.is_active := InvestmentPackage.is_active pkg;
     InvestmentPackage.package_type := InvestmentPackage.package_type pkg;
     InvestmentPackage.daily_income :=
       Some match InvestmentPackage.daily_income pkg with
            | Some d => if JS.truthy d then d else 0%float
            | None => 0%float
            end |}.

(** The columns of the withdrawals select: every column, with the owning
    profile embedded through the foreign key. *)
Definition withdrawal_columns : string :=
  "
          *,
          profiles!withdrawal_requests_user_id_fkey (" ++ "*)
        ".

Definition users_warning : Toast :=
  {| title := "Users Data Warning";
     description := "Could not fetch users data. This may be due to RLS policies.";
     variant := destructive |}.

Definition fetch_failure : Toast :=
  {| title := "Error";
     description := "Failed to fetch dashboard data.";
     variant := destructive |}.

Definition fetchData : prog unit :=
  try_finally
    (try_catch
       (tell (setLoading true) ;;
        tell (console log "Fetching admin data..." None) ;;
        users_reply <- await (select_profiles "*" "created_at" false) ;;
        tell (console log "Users data:" (Some (logged_users (data users_reply)))) ;;
        tell (console log "Users error:" (Some (logged_error (error users_reply)))) ;;
        packages_reply <- await (select_investment_packages "*" "created_at" false) ;;
        withdrawals_reply <-
          await (select_withdrawal_requests withdrawal_columns "requested_at" false) ;;
        tell (setUsers (or_empty (data users_reply))) ;;
        tell (setPackages
                (or_empty (option_map (map with_daily_income) (data packages_reply)))) ;;
        tell (setWithdrawals (or_empty (data withdrawals_reply))) ;;
        match error users_reply with
        | Some usersError =>
            tell (console error_level "Users fetch error:"
                    (Some (logged_error (Some usersError)))) ;;
            tell (toast users_warning)
        | None => Ret tt
        end)
       (fun error =>
          tell (console error_level "Error fetching data:"
                  (Some (logged_error (Some error)))) ;;
          tell (toast fetch_failure)))
    (tell (setLoading false)).

Definition user_deleted (userName : string) : Toast :=
  {| title := "User Deleted";
     description := "User " ++ userName ++ " has been successfully deleted.";
     variant := None |}.

Definition user_deletion_failure : Toast :=
  {| title := "Error";
     description := "Failed to delete user.";
     variant := destructive |}.

Definition handleUserDeletion (userId userName : string) : prog unit :=
  confirmed <-
    ask (window_confirm
           ("Are you sure you want to delete user " ++ userName
            ++ "? This action cannot be undone.")) ;;
  if negb confirmed then Ret tt
  else
    try_catch
      (_ <- await (mutate (delete_eq user_investments "user_id" userId)) ;;
       _ <- await (mutate (delete_eq withdrawal_requests "user_id" userId)) ;;
       r <- await (mutate (delete_eq profiles "id" userId)) ;;
       throw_if_error r ;;
       try_catch
         (_ <- await (mutate (auth_admin_deleteUser userId)) ;; Ret tt)
         (fun authError =>
            tell (console warn "Could not delete auth user:"
                    (Some (logged_error (Some authError))))) ;;
       tell (toast (user_deleted userName)) ;;
       fetchData)
      (fun error =>
         tell (console error_level "Error deleting user:"
                 (Some (logged_error (Some error)))) ;;
         tell (toast user_deletion_failure)).

Inductive action := approve | reject.

Definition action_text (a : action) : string :=
  match a with
  | approve => "approve"
  | reject => "reject"
  end.

Definition withdrawal_processed (a : action) : Toast :=
  {| title := "Withdrawal " ++ match a with approve => "Approved" | reject => "Rejected" end;
     description := "The withdrawal request has been " ++ action_text a ++ "d.";
     variant := None |}.

Definition withdrawal_failure : Toast :=
  {| title := "Error";
     description := "Failed to process withdrawal request.";
     variant := destructive |}.

Definition handleWithdrawalAction (withdrawalId : string) (a : action) : prog unit :=
  try_catch
    (processed_at <- ask Date_toISOString ;;
     r <- await (mutate
                   (update_eq withdrawal_requests
                      (patch_status
                         match a with approve => "approved" | reject => "rejected" end
                         processed_at)
                      "id" withdrawalId)) ;;
     throw_if_error r ;;
     tell (toast (withdrawal_processed a)) ;;
     fetchData)
    (fun error =>
       tell (console error_level "Error processing withdrawal:"
               (Some (logged_error (Some error)))) ;;
       tell (toast withdrawal_failure)).

Definition package_type_text (t : package_type) : string :=
  match t with
  | daily => "daily"
  | stable => "stable"
  end.

Definition invalid_package : Toast :=
  {| title := "Invalid Input";
     description := "Please fill in all package details.";
     variant := destructive |}.

Definition package_created (t : package_type) : Toast :=
  {| title := "Package Created";
     description :=
       "New " ++ package_type_text t
       ++ " investment package has been created successfully.";
     variant := None |}.

Definition package_failure : Toast :=
  {| title := "Error";
     description := "Failed to create investment package.";
     variant := destructive |}.

(** The object [handlePackageCreate] inserts for a form. *)
Definition new_package (packageForm : PackageForm.t) : NewPackage.t :=
  {| NewPackage.name := PackageForm.name packageForm;
     NewPackage.amount := JS.parseFloat (PackageForm.amount packageForm);
     NewPackage.return_amount := JS.parseFloat (PackageForm.return_amount packageForm);
     NewPackage.duration_days := JS.parseInt (PackageForm.duration_days packageForm);
     NewPackage.max_purchases := 3%float;
     NewPackage.package_type := PackageForm.package_type packageForm |}.

(** The handlers close over the state of the render they were created in:
    [st] is that state. *)
Definition handlePackageCreate (st : Dashboard) : prog unit :=
  let packageForm := packageForm st in
  if JS.is_empty (PackageForm.name packageForm)
     || JS.is_empty (PackageForm.amount packageForm)
     || JS.is_empty (PackageForm.return_amount packageForm)
     || JS.is_empty (PackageForm.duration_days packageForm)
  then tell (toast invalid_package)
  else
    try_catch
      (r <- await (mutate (insert investment_packages (new_package packageForm))) ;;
       throw_if_error r ;;
       tell (toast (package_created (PackageForm.package_type packageForm))) ;;
       tell (setPackageForm
               {| PackageForm.name := ""; PackageForm.amount := "";
                  PackageForm.return_amount := ""; PackageForm.duration_days := "";
                  PackageForm.package_type := stable |}) ;;
       fetchData)
      (fun error =>
         tell (console error_level "Error creating package:"
                 (Some (logged_error (Some error)))) ;;
         tell (toast package_failure)).

Definition invalid_adjustment : Toast :=
  {| title := "Invalid Input";
     description := "Please select a user and enter an amount.";
     variant := destructive |}.

Definition adjustment_failure : Toast :=
  {| title := "Error";
     description := "Failed to adjust wallet balance.";
     variant := destructive |}.

(** The balance [handleWalletAdjustment] computes for [user]. *)
Definition newBalance (walletAdjustment : WalletAdjustment.t) (user : Profile.t)
  : JS.number :=
  let amount := JS.parseFloat (WalletAdjustment.amount walletAdjustment) in
  match WalletAdjustment.type walletAdjustment with
  | WalletAdjustment.add => (Profile.wallet_balance user + amount)%float
  | WalletAdjustment.subtract =>
      JS.Math_max 0%float (Profile.wallet_balance user - amount)%float
  end.

Section Locale.

(** [Number.prototype.toLocaleString], which depends on the locale of the
    browser. *)
Variable toLocaleString : JS.number -> string.

Definition wallet_adjusted (walletAdjustment : WalletAdjustment.t) : Toast :=
  {| title := "Wallet Adjusted";
     description :=
       "User wallet has been "
       ++ match WalletAdjustment.type walletAdjustment with
          | WalletAdjustment.add => "credited"
          | WalletAdjustment.subtract => "debited"
          end
       ++ " with "
       ++ toLocaleString (JS.parseFloat (WalletAdjustment.amount walletAdjustment))
       ++ " RWF.";
     variant := None |}.

Definition handleWalletAdjustment (st : Dashboard) : prog unit :=
  let walletAdjustment := walletAdjustment st in
  if JS.is_empty (WalletAdjustment.userId walletAdjustment)
     || JS.is_empty (WalletAdjustment.amount walletAdjustment)
  then tell (toast invalid_adjustment)
  else
    try_catch
      match
        find (fun u => (Profile.id u =? WalletAdjustment.userId walletAdjustment)%string)
          (users st)
      with
      | None => Ret tt
      | Some user =>
          r <- await (mutate
                        (update_eq profiles
                           (patch_wallet_balance (newBalance walletAdjustment user))
                           "id" (WalletAdjustment.userId walletAdjustment))) ;;
          throw_if_error r ;;
          tell (toast (wallet_adjusted walletAdjustment)) ;;
          tell (setWalletAdjustment
                  {| WalletAdjustment.userId := ""; WalletAdjustment.amount := "";
                     WalletAdjustment.type := WalletAdjustment.add |}) ;;
          fetchData
      end
      (fun error =>
         tell (console error_level "Error adjusting wallet:"
                 (Some (logged_error (Some error)))) ;;
         tell (toast adjustment_failure)).

End Locale.

(** ** The inputs of the package form

    The name is a text input; the amount, the return amount and the
    duration are [<input type="number">], whose value is the text typed
    when that is a valid floating-point number and the empty string
    otherwise. *)

Module NumberInput.

(** Nothing, or an exponent: [e] or [E], an optional sign, digits, and
    nothing after them. *)
Definition exponent_ok (r : string) : bool :=
  match r with
  | EmptyString => true
  | String c r1 =>
      if ((c =? "e") || (c =? "E"))%char then
        let r2 := match r1 with
                  | String "-" r | String "+" r => r
                  | _ => r1
                  end in
        let '(_, len, rest) := JS.digits r2 0 0 in
        (0 <? len)%Z && JS.is_empty rest
      else false
  end.

(** A valid floating-point number: an optional [-]; digits, or a dot and
    digits, or both in that order; an optional exponent. *)
Definition valid (s : string) : bool :=
  let u := match s with
           | String "-" r => r
           | _ => s
           end in
  let '(_, ilen, r) := JS.digits u 0 0 in
  match r with
  | String "." r' =>
      let '(_, flen, r'') := JS.digits r' 0 0 in
      (0 <? flen)%Z && exponent_ok r''
  | _ => (0 <? ilen)%Z && exponent_ok r
  end.

(** [e.target.value] when the text of the input is [text]. *)
Definition value (text : string) : string := if valid text then text else "".

End NumberInput.







(** ** The rest of the page *)

(** A double quote, as a string. *)
Definition quote : string := String (ascii_of_nat 34) EmptyString.

Definition package_deleted (packageName : string) : Toast :=
  {| title := "Package Deleted";
     description :=
       "Package " ++ quote ++ packageName ++ quote ++ " has been successfully deleted.";
     variant := None |}.

Definition package_deletion_failure : Toast :=
  {| title := "Error";
     description := "Failed to delete investment package.";
     variant := destructive |}.

Definition confirm_package_deletion (packageName : string) : query bool :=
  window_confirm
    ("Are you sure you want to delete the package " ++ quote ++ packageName ++ quote
     ++ "? This action cannot be undone.").

Definition handlePackageDelete (packageId packageName : string) : prog unit :=
  confirmed <- ask (confirm_package_deletion packageName) ;;
  if negb confirmed then Ret tt
  else
    try_catch
      (r <- await (mutate (delete_eq investment_packages "id" packageId)) ;;
       throw_if_error r ;;
       tell (toast (package_deleted packageName)) ;;
       fetchData)
      (fun error =>
         tell (console error_level "Error deleting package:"
                 (Some (logged_error (Some error)))) ;;
         tell (toast package_deletion_failure)).

(** The derived counts, computed from the collections at every render. *)
Record Stats := {
  totalUsers : nat;
  activeUsers : nat;
  totalPackages : nat;
  pendingWithdrawals : nat
}.

Definition stats (st : Dashboard) : Stats :=
  {| totalUsers := List.length (users st);
     activeUsers := List.length (filter (fun u => Profile.is_active u) (users st));
     totalPackages := List.length (packages st);
     pendingWithdrawals :=
       List.length (filter (fun w => (WithdrawalRequest.status w =? "pending")%string)
                 (withdrawals st)) |}.

(** The cells of a row of the withdrawals table that depend on the status:
    the variant of the badge, and the decisions its buttons offer, each
    button calling [handleWithdrawalAction] with the id of the row. *)
Definition withdrawal_badge (withdrawal : WithdrawalRequest.t) : string :=
  if (WithdrawalRequest.status withdrawal =? "approved")%string then "default"
  else if (WithdrawalRequest.status withdrawal =? "rejected")%string then "destructive"
  else "secondary".

Definition withdrawal_buttons (withdrawal : WithdrawalRequest.t) : list action :=
  if (WithdrawalRequest.status withdrawal =? "pending")%string
  then [approve; reject]
  else [].

(** The text of the badge of a row of the users table. *)
Definition user_badge (user : Profile.t) : string :=
  if Profile.is_active user then "Active" else "Pending Approval".

(** *** More of what a trace shows *)

Definition command_of (ev : event) : option command :=
  match ev with
  | Told c => Some c
  | Asked _ _ => None
  end.

(** What was told, in order. *)
Definition commands (tr : list event) : list command := pick command_of tr.

(** The number of questions asked. *)
Definition asked (tr : list event) : nat :=
  List.length (filter (fun ev => match ev with Asked _ _ => true | Told _ => false end) tr).

(** The selects of a trace: the table asked, and whether the promise was
    fulfilled. *)
Definition select_of (ev : event) : option (table * bool) :=
  match ev with
  | Asked q x =>
      match q in query X return X -> option (table * bool) with
      | select_profiles _ _ _ =>
          fun s => Some (profiles, match s with Fulfilled _ => true | Rejected _ => false end)
      | select_investment_packages _ _ _ =>
          fun s => Some (investment_packages,
                         match s with Fulfilled _ => true | Rejected _ => false end)
      | select_withdrawal_requests _ _ _ =>
          fun s => Some (withdrawal_requests,
                         match s with Fulfilled _ => true | Rejected _ => false end)
      | _ => fun _ => None
      end x
  | Told _ => None
  end.

Definition selects (tr : list event) : list (table * bool) := pick select_of tr.

(** Every package has a daily income, and it is a number. *)
Definition daily_income_set (pkg : InvestmentPackage.t) : Prop :=
  exists d, InvestmentPackage.daily_income pkg = Some d /\ is_nan d = false.

(** ** Worlds to run the handlers in *)

(** Every request succeeds, the store holds no row, the administrator
    confirms. *)
Definition quiet : world :=
  fun _ X q =>
    match q in query X return X with
    | select_profiles _ _ _ => Fulfilled {| data := Some []; error := None |}
    | select_investment_packages _ _ _ => Fulfilled {| data := Some []; error := None |}
    | select_withdrawal_requests _ _ _ => Fulfilled {| data := Some []; error := None |}
    | mutate _ => Fulfilled {| data := None; error := None |}
    | window_confirm _ => true
    | Date_toISOString => "2025-01-01T00:00:00.000Z"
    end.

Definition denied : js_error := {| message := "permission denied" |}.

Definition unreachable : js_error := {| message := "Failed to fetch" |}.

(** As [quiet], but the select that [refused] picks replies with an error
    and no data. *)
Definition refusing (refused : table) : world :=
  fun i X q =>
    match q in query X return X with
    | select_profiles c o a =>
        match refused with
        | profiles => Fulfilled {| data := None; error := Some denied |}
        | _ => quiet i _ (select_profiles c o a)
        end
    | select_investment_packages c o a =>
        match refused with
        | investment_packages => Fulfilled {| data := None; error := Some denied |}
        | _ => quiet i _ (select_investment_packages c o a)
        end
    | select_withdrawal_requests c o a =>
        match refused with
        | withdrawal_requests => Fulfilled {| data := None; error := Some denied |}
        | _ => quiet i _ (select_withdrawal_requests c o a)
        end
    | mutate m => quiet i _ (mutate m)
    | window_confirm question => quiet i _ (window_confirm question)
    | Date_toISOString => quiet i _ Date_toISOString
    end.

(** As [quiet], but the promise of question number [n] is rejected when it
    is a request of the store. *)
Definition failing_at (n : nat) : world :=
  fun i X q =>
    if (i =? n)%nat then
      match q in query X return X with
      | select_profiles _ _ _ => Rejected unreachable
      | select_investment_packages _ _ _ => Rejected unreachable
      | select_withdrawal_requests _ _ _ => Rejected unreachable
      | mutate _ => Rejected unreachable
      | window_confirm question => quiet i _ (window_confirm question)
      | Date_toISOString => quiet i _ Date_toISOString
      end
    else quiet i _ q.

(** The entries of a trace written to the console at level [l]. *)
Definition log_of (l : level) (ev : event) : option (string * option logged) :=
  match ev with
  | Told (console l' label payload) =>
      match l, l' with
      | log, log | warn, warn | error_level, error_level => Some (label, payload)
      | _, _ => None
      end
  | _ => None
  end.

Definition logs (l : level) (tr : list event) : list (string * option logged) :=
  pick (log_of l) tr.

(** The events and worlds of the page, under names that stay in reach
    below. *)
Definition Top_event := event.
Definition Top_world := world.

(** ** The handlers of the [is_active] flag

    [handleUserActivation] and [handlePackageToggle] make one more kind of
    request, [from(t).update({ is_active }).eq(column, value)].  Their
    programs are written over the questions of the page and that one, and
    run the programs above unchanged. *)

Module Flags.

Inductive request : Type -> Type :=
| page_query {X : Type} (q : query X) : request X
| update_is_active (t : table) (is_active : bool) (column value : string)
    : request (settled unit).

Inductive flow (R : Type) : Type :=
| Return (r : R)
| Raise (e : js_error)
| Say (c : command) (k : flow R)
| Query {X : Type} (q : request X) (k : X -> flow R).
Arguments Return {R} r.
Arguments Raise {R} e.
Arguments Say {R} c k.
Arguments Query {R X} q k.

Fixpoint bind {A B} (p : flow A) (f : A -> flow B) : flow B :=
  match p with
  | Return a => f a
  | Raise e => Raise e
  | Say c k => Say c (bind k f)
  | Query q k => Query q (fun x => bind (k x) f)
  end.

Declare Scope flow_scope.
Delimit Scope flow_scope with flow.
Notation "x <- p ;; q" := (bind p (fun x => q))
  (at level 61, p at next level, right associativity) : flow_scope.
Notation "p ;; q" := (bind p (fun _ => q))
  (at level 61, right associativity) : flow_scope.
Local Open Scope flow_scope.

(** A program of the page, as it is. *)
Fixpoint of_prog {R} (p : prog R) : flow R :=
  match p with
  | Ret r => Return r
  | Throw e => Raise e
  | Tell c k => Say c (of_prog k)
  | Ask q k => Query (page_query q) (fun x => of_prog (k x))
  end.

Definition say (c : command) : flow unit := Say c (Return tt).

(** [await] of a request: a rejected promise throws its reason. *)
Definition await {D} (q : request (settled D)) : flow (reply D) :=
  Query q (fun s =>
             match s with
             | Fulfilled r => Return r
             | Rejected e => Raise e
             end).

(** [try { p } catch (e) { h e }] *)
Fixpoint try_catch {R} (p : flow R) (h : js_error -> flow R) : flow R :=
  match p with
  | Return r => Return r
  | Raise e => h e
  | Say c k => Say c (try_catch k h)
  | Query q k => Query q (fun x => try_catch (k x) h)
  end.

(** [if (error) throw error;] *)
Definition throw_if_error {D} (r : reply D) : flow unit :=
  match error r with
  | Some e => Raise e
  | None => Return tt
  end.

Inductive event :=
| Said (c : command)
| Answered {X : Type} (q : request X) (answer : X).

Definition of_event (ev : Top_event) : event :=
  match ev with
  | Told c => Said c
  | Asked q x => Answered (page_query q) x
  end.

(** The surroundings, answering the one more kind of request as well. *)
Definition world := nat -> forall X, request X -> X.

(** What [w] answers to the questions of the page. *)
Definition page_world (w : world) : Top_world :=
  fun i X q => w i X (page_query q).

Record result (R : Type) := {
  events : list event;
  state : Dashboard;
  completed : completion R
}.
Arguments events {R} _.
Arguments state {R} _.
Arguments completed {R} _.

Fixpoint run {R} (w : world) (p : flow R) (i : nat) (st : Dashboard) : result R :=
  match p with
  | Return r => {| events := []; state := st; completed := Returned r |}
  | Raise e => {| events := []; state := st; completed := Thrown e |}
  | Say c k =>
      let r := run w k i (apply c st) in
      {| events := Said c :: events r; state := state r; completed := completed r |}
  | Query q k =>
      let x := w i _ q in
      let r := run w (k x) (S i) st in
      {| events := Answered q x :: events r; state := state r;
         completed := completed r |}
  end.

(** The flags written, each with the table, the key and how the update
    settled. *)
Definition flag_of (ev : event) : option (table * bool * string * string * settled unit) :=
  match ev with
  | Answered q x =>
      match q in request X
            return X -> option (table * bool * string * string * settled unit) with
      | update_is_active t b column value => fun s => Some (t, b, column, value, s)
      | page_query _ => fun _ => None
      end x
  | Said _ => None
  end.

Definition flags (tr : list event) : list (table * bool * string * string * settled unit) :=
  pick flag_of tr.

Definition user_status_changed (activate : bool) : Toast :=
  {| title := if activate then "User Activated" else "User Deactivated";
     description :=
       ("User has been " ++ (if activate then "activated" else "deactivated")
        ++ " successfully.")%string;
     variant := None |}.

Definition user_status_failure : Toast :=
  {| title := "Error";
     description := "Failed to update user status.";
     variant := destructive |}.

Definition handleUserActivation (userId : string) (activate : bool) : flow unit :=
  try_catch
    (r <- await (update_is_active profiles activate "id" userId) ;;
     throw_if_error r ;;
     say (toast (user_status_changed activate)) ;;
     of_prog fetchData)
    (fun error =>
       say (console error_level "Error updating user:"
              (Some (logged_error (Some error)))) ;;
       say (toast user_status_failure)).

Definition package_toggled (isActive : bool) : Toast :=
  {| title :=
       ("Package " ++ (if negb isActive then "Activated" else "Deactivated"))%string;
     description :=
       ("The package has been "
        ++ (if negb isActive then "activated" else "deactivated") ++ ".")%string;
     variant := None |}.

Definition package_toggle_failure : Toast :=
  {| title := "Error";
     description := "Failed to toggle package status.";
     variant := destructive |}.

Definition handlePackageToggle (packageId : string) (isActive : bool) : flow unit :=
  try_catch
    (r <- await (update_is_active investment_packages (negb isActive) "id" packageId) ;;
     throw_if_error r ;;
     say (toast (package_toggled isActive)) ;;
     of_prog fetchData)
    (fun error =>
       say (console error_level "Error toggling package:"
              (Some (logged_error (Some error)))) ;;
       say (toast package_toggle_failure)).

(** The button of a row of the users table: its label, and what a click
    runs. *)
Definition user_button_label (user : Profile.t) : string :=
  if Profile.is_active user then "Deactivate" else "Approve".

Definition user_button_click (user : Profile.t) : flow unit :=
  handleUserActivation (Profile.id user) (negb (Profile.is_active user)).

(** The toggle of a package card. *)
Definition package_toggle_label (pkg : InvestmentPackage.t) : string :=
  if InvestmentPackage.is_active pkg then "Deactivate" else "Activate".

Definition package_toggle_click (pkg : InvestmentPackage.t) : flow unit :=
  handlePackageToggle (InvestmentPackage.id pkg) (InvestmentPackage.is_active pkg).

(** The questions of the page are answered as in [page]; the update of a
    flag is rejected when [fails] and succeeds otherwise. *)
Definition over (page : Top_world) (fails : bool) : world :=
  fun i X q =>
    match q in request X return X with
    | page_query q' => page i _ q'
    | update_is_active _ _ _ _ =>
        if fails then Rejected unreachable
        else Fulfilled {| data := None; error := None |}
    end.

End Flags.

(** ** Names used in the statements *)

(** The three selects of [fetchData]. *)
Abbreviation the_profiles := (select_profiles "*" "created_at" false).
Abbreviation the_packages := (select_investment_packages "*" "created_at" false).
Abbreviation the_withdrawals :=
  (select_withdrawal_requests withdrawal_columns "requested_at" false).

(** The confirmation question and the deletes of [handleUserDeletion]. *)
Definition confirm_deletion (userName : string) : query bool :=
  window_confirm
    ("Are you sure you want to delete user " ++ userName
     ++ "? This action cannot be undone.")%string.

Definition delete_investments (userId : string) : mutation :=
  delete_eq user_investments "user_id" userId.

Definition delete_withdrawals (userId : string) : mutation :=
  delete_eq withdrawal_requests "user_id" userId.

Definition delete_profile (userId : string) : mutation :=
  delete_eq profiles "id" userId.

(** A request succeeded: its promise was fulfilled with no error. *)
Definition succeeded {D} (s : settled D) : bool :=
  match s with
  | Fulfilled r =>
      match error r with
      | None => true
      | Some _ => false
      end
  | Rejected _ => false
  end.

(** A spec float with the sign bit [s]; [NaN] has none. *)
Definition has_sign (s : bool) (d : spec_float) : Prop :=
  match d with
  | S754_zero s' | S754_infinity s' | S754_finite s' _ _ => s' = s
  | S754_nan => False
  end.

(** ** Sample data *)

Definition refused_reply : reply unit := {| data := None; error := Some denied |}.

(** As [quiet], but the two dependent deletes reply with an error. *)
Definition dependents_denied : world :=
  fun i X q =>
    match q in query X return X with
    | mutate (delete_eq user_investments _ _)
    | mutate (delete_eq withdrawal_requests _ _) => Fulfilled refused_reply
    | mutate m => quiet i _ (mutate m)
    | select_profiles c o a => quiet i _ (select_profiles c o a)
    | select_investment_packages c o a => quiet i _ (select_investment_packages c o a)
    | select_withdrawal_requests c o a => quiet i _ (select_withdrawal_requests c o a)
    | window_confirm question => quiet i _ (window_confirm question)
    | Date_toISOString => quiet i _ Date_toISOString
    end.

(** The administrator declines every confirmation; otherwise as [quiet]. *)
Definition declining : world :=
  fun i X q =>
    match q in query X return X with
    | window_confirm _ => false
    | select_profiles c o a => quiet i _ (select_profiles c o a)
    | select_investment_packages c o a => quiet i _ (select_investment_packages c o a)
    | select_withdrawal_requests c o a => quiet i _ (select_withdrawal_requests c o a)
    | mutate m => quiet i _ (mutate m)
    | Date_toISOString => quiet i _ Date_toISOString
    end.

(** The page with [form] in the package form buffer. *)
Definition with_package_form (form : PackageForm.t) : Dashboard :=
  {| users := []; packages := []; withdrawals := []; loading := false;
     activeTab := "packages"; packageForm := form;
     walletAdjustment := WalletAdjustment.initial |}.

Definition premium : PackageForm.t :=
  {| PackageForm.name := "Premium"; PackageForm.amount := "50000";
     PackageForm.return_amount := "65000"; PackageForm.duration_days := "30";
     PackageForm.package_type := daily |}.

Definition no_package_amount : PackageForm.t :=
  {| PackageForm.name := "Premium"; PackageForm.amount := "";
     PackageForm.return_amount := "65000"; PackageForm.duration_days := "30";
     PackageForm.package_type := daily |}.

Definition ada : Profile.t :=
  {| Profile.id := "u1"; Profile.first_name := "Ada"; Profile.last_name := "Lovelace";
     Profile.phone := "0780000000"; Profile.referral_code := "ADA001";
     Profile.wallet_balance := 10000%float; Profile.is_active := true;
     Profile.created_at := "2024-05-01T10:00:00+00:00" |}.

(** A row of [investment_packages] as the store returns it, with no daily
    income, and a world whose store holds it and [ada]. *)
Definition starter : InvestmentPackage.t :=
  {| InvestmentPackage.id := "p1"; InvestmentPackage.name := "Starter";
     InvestmentPackage.amount := 5000%float;
     InvestmentPackage.return_amount := 6000%float;
     InvestmentPackage.duration_days := 30%float;
     InvestmentPackage.max_purchases := 3%float;
     InvestmentPackage.is_active := true;
     InvestmentPackage.package_type := stable;
     InvestmentPackage.daily_income := None |}.

Definition stocked : world :=
  fun i X q =>
    match q in query X return X with
    | select_profiles _ _ _ => Fulfilled {| data := Some [ada]; error := None |}
    | select_investment_packages _ _ _ =>
        Fulfilled {| data := Some [starter]; error := None |}
    | select_withdrawal_requests c o a => quiet i _ (select_withdrawal_requests c o a)
    | mutate m => quiet i _ (mutate m)
    | window_confirm question => quiet i _ (window_confirm question)
    | Date_toISOString => quiet i _ Date_toISOString
    end.

(** A withdrawal of [ada] with the given status, and the page holding one
    pending and one approved withdrawal. *)
Definition withdrawal_of_ada (id status : string) : WithdrawalRequest.t :=
  {| WithdrawalRequest.id := id; WithdrawalRequest.user_id := "u1";
     WithdrawalRequest.amount := 4000%float; WithdrawalRequest.fee := 200%float;
     WithdrawalRequest.net_amount := 3800%float;
     WithdrawalRequest.status := status;
     WithdrawalRequest.requested_at := "2024-06-01T09:00:00+00:00";
     WithdrawalRequest.profiles := ada |}.

Definition with_withdrawals : Dashboard :=
  {| users := [ada]; packages := [];
     withdrawals := [withdrawal_of_ada "w7" "pending"; withdrawal_of_ada "w6" "approved"];
     loading := false; activeTab := "withdrawals";
     packageForm := PackageForm.initial;
     walletAdjustment := WalletAdjustment.initial |}.

(** The page with [ada] as its only user and [form] in the wallet form
    buffer. *)
Definition with_wallet_form (form : WalletAdjustment.t) : Dashboard :=
  {| users := [ada]; packages := []; withdrawals := []; loading := false;
     activeTab := "wallet"; packageForm := PackageForm.initial;
     walletAdjustment := form |}.

(** The user the wallet form selects, as [handleWalletAdjustment] looks it
    up: [users.find(u => u.id === walletAdjustment.userId)]. *)
Definition selected (st : Dashboard) : option Profile.t :=
  find (fun u => (Profile.id u =? WalletAdjustment.userId (walletAdjustment st))%string)
    (users st).

(** Wallet forms for [ada], whose balance is 10000: a debit of 15000, a
    credit of 2500, a credit with no amount, a credit to an unknown user, a
    credit of -5 and a debit of "abc". *)
Definition overdraw : WalletAdjustment.t :=
  {| WalletAdjustment.userId := "u1"; WalletAdjustment.amount := "15000";
     WalletAdjustment.type := WalletAdjustment.subtract |}.

Definition credit : WalletAdjustment.t :=
  {| WalletAdjustment.userId := "u1"; WalletAdjustment.amount := "2500";
     WalletAdjustment.type := WalletAdjustment.add |}.

Definition debit : WalletAdjustment.t :=
  {| WalletAdjustment.userId := "u1"; WalletAdjustment.amount := "2500";
     WalletAdjustment.type := WalletAdjustment.subtract |}.

Definition no_amount : WalletAdjustment.t :=
  {| WalletAdjustment.userId := "u1"; WalletAdjustment.amount := "";
     WalletAdjustment.type := WalletAdjustment.add |}.

Definition stranger : WalletAdjustment.t :=
  {| WalletAdjustment.userId := "u2"; WalletAdjustment.amount := "500";
     WalletAdjustment.type := WalletAdjustment.add |}.

Definition negative : WalletAdjustment.t :=
  {| WalletAdjustment.userId := "u1"; WalletAdjustment.amount := "-5";
     WalletAdjustment.type := WalletAdjustment.add |}.

Definition unreadable : WalletAdjustment.t :=
  {| WalletAdjustment.userId := "u1"; WalletAdjustment.amount := "abc";
     WalletAdjustment.type := WalletAdjustment.subtract |}.

(** A stand-in for the locale of the browser in the runs below; the text of
    the toast plays no part in them. *)
Definition plain (x : JS.number) : string := "".

(** * Properties *)

Local Open Scope list_scope.

(** Case analysis on the next answer of the world, or on the error of a
    reply. *)
Ltac step := cbn -[fetchData String.append]; unfold throw_if_error.

Ltac answer :=
  match goal with
  | |- context [match ?w ?i ?X ?q with _ => _ end] => destruct (w i X q) eqn:?
  | |- context [match error ?r with _ => _ end] => destruct (error r) eqn:?
  end; step.

Ltac all_answers := unfold fetchData; step; repeat answer.

(** ** Readings of the built-ins, checked by evaluation *)

Example parseFloat_decimal :
  JS.parseFloat "15000" = 15000%float /\ JS.parseFloat "-5" = (-5)%float
  /\ JS.parseFloat "  42px" = 42%float /\ JS.parseFloat ".5e1" = 5%float.
Proof. vm_compute. repeat split; reflexivity. Qed.

Example parseFloat_not_a_number :
  JS.parseFloat "abc" = nan /\ JS.parseFloat "" = nan /\ JS.parseFloat "-." = nan.
Proof. vm_compute. repeat split; reflexivity. Qed.

Example parseFloat_rounds_to_nearest :
  JS.parseFloat "9007199254740993" = 9007199254740992%float
  /\ JS.parseFloat "1e400" = infinity
  /\ JS.parseFloat "0.30000000000000004" = (JS.parseFloat "0.1" + JS.parseFloat "0.2")%float.
Proof. vm_compute. repeat split; reflexivity. Qed.

Example parseInt_readings :
  JS.parseInt "30" = 30%float /\ JS.parseInt "30.9" = 30%float
  /\ JS.parseInt "0x1F" = 31%float /\ JS.parseInt "days" = nan.
Proof. vm_compute. repeat split; reflexivity. Qed.

Example Math_max_zeros :
  (JS.Math_max 0 (-0) = 0 /\ JS.Math_max (-0) 0 = 0 /\ JS.Math_max 0 nan = nan)%float.
Proof. vm_compute. repeat split; reflexivity. Qed.

(** ** Binary64 subtraction below zero

    When [c < a], the difference [c - a] rounds to a number with the sign
    bit set: it is not [NaN] and it is not above zero. *)

Module Binary64.

Local Open Scope Z_scope.

Lemma digits2_pos_bounds (m : positive) :
  2 ^ (Zpos (digits2_pos m) - 1) <= Zpos m < 2 ^ Zpos (digits2_pos m).
Proof.
  induction m as [m IH | m IH | ]; cbn [digits2_pos].
  1, 2: rewrite Pos2Z.inj_succ, Z.pow_succ_r by lia;
    replace (Z.succ (Zpos (digits2_pos m)) - 1)
      with (Z.succ (Zpos (digits2_pos m) - 1)) by lia;
    rewrite Z.pow_succ_r by lia; lia.
  cbn. lia.
Qed.

Lemma iter_xO (m d : positive) : Zpos (Pos.iter xO m d) = Zpos m * 2 ^ Zpos d.
Proof.
  induction d as [ | d IH] using Pos.peano_ind.
  - cbn. lia.
  - rewrite Pos.iter_succ, Pos2Z.inj_succ, Z.pow_succ_r by lia.
    rewrite Pos2Z.inj_xO, IH. lia.
Qed.

Lemma shl_align_le (m : positive) (e e' : Z) :
  e' <= e -> Zpos (fst (shl_align m e e')) = Zpos m * 2 ^ (e - e').
Proof.
  intros H. unfold shl_align.
  destruct (e' - e) as [ | d | d] eqn:E; try lia.
  - replace (e - e') with 0 by lia. cbn [fst]. lia.
  - cbn [fst]. rewrite iter_xO. f_equal. f_equal. lia.
Qed.

(** A canonical mantissa has at most [prec] digits, and exactly [prec]
    above the smallest exponent. *)
Lemma bounded_digits m e :
  bounded prec emax m e = true ->
  Zpos (digits2_pos m) <= prec
  /\ emin <= e
  /\ (emin < e -> Zpos (digits2_pos m) = prec).
Proof.
  unfold bounded, canonical_mantissa, fexp.
  intros H. apply andb_prop in H. destruct H as [H _]. apply Z.eqb_eq in H.
  lia.
Qed.

Lemma lower_exponent_smaller m1 e1 m2 e2 :
  bounded prec emax m1 e1 = true -> bounded prec emax m2 e2 = true ->
  e1 < e2 -> Zpos m1 < Zpos m2 * 2 ^ (e2 - e1).
Proof.
  intros B1 B2 L.
  destruct (bounded_digits _ _ B1) as (D1 & E1 & _).
  destruct (bounded_digits _ _ B2) as (_ & _ & D2).
  pose proof (digits2_pos_bounds m1) as [_ U1].
  pose proof (digits2_pos_bounds m2) as [L2 _].
  rewrite D2 in L2 by lia.
  assert (2 ^ Zpos (digits2_pos m1) <= 2 ^ prec)
    by (apply Z.pow_le_mono_r; lia).
  assert (2 ^ 1 <= 2 ^ (e2 - e1)) by (apply Z.pow_le_mono_r; lia).
  assert (2 ^ prec = 2 ^ (prec - 1) * 2 ^ 1)
    by (rewrite <- Z.pow_add_r by (unfold prec; lia); f_equal; lia).
  nia.
Qed.

(** Shifting and rounding a mantissa that is not negative gives one that is
    not negative, so rounding keeps the sign it is given. *)
Lemma shr_1_nonneg mrs : 0 <= shr_m mrs -> 0 <= shr_m (shr_1 mrs).
Proof.
  destruct mrs as [m r s]. cbn.
  destruct m as [ | [p | p | ] | [p | p | ]]; cbn; lia.
Qed.

Lemma iter_shr_1_nonneg p mrs :
  0 <= shr_m mrs -> 0 <= shr_m (iter_pos shr_1 p mrs).
Proof.
  revert mrs. induction p as [p IH | p IH | ]; intros mrs H; cbn.
  - apply IH, IH, shr_1_nonneg, H.
  - apply IH, IH, H.
  - apply shr_1_nonneg, H.
Qed.

Lemma shr_fexp_nonneg m e l :
  0 <= m -> 0 <= shr_m (fst (shr_fexp prec emax m e l)).
Proof.
  intros H. unfold shr_fexp, shr.
  assert (0 <= shr_m (shr_record_of_loc m l))
    by (destruct l as [ | [ | | ]]; exact H).
  destruct (fexp prec emax (Zdigits2 m + e) - e); cbn [fst];
    auto using iter_shr_1_nonneg.
Qed.

Lemma round_nearest_even_nonneg m l : 0 <= m -> 0 <= round_nearest_even m l.
Proof.
  intros H. destruct l as [ | [ | | ]]; cbn; try destruct (Z.even m); lia.
Qed.

Lemma binary_round_aux_sign s m e l :
  0 <= m -> has_sign s (binary_round_aux prec emax s m e l).
Proof.
  intros H. unfold binary_round_aux.
  pose proof (shr_fexp_nonneg m e l H) as H1.
  destruct (shr_fexp prec emax m e l) as [mrs' e'].
  cbn [fst] in H1.
  pose proof (shr_fexp_nonneg _ e' loc_Exact
                (round_nearest_even_nonneg _ (loc_of_shr_record mrs') H1)) as H2.
  destruct (shr_fexp prec emax _ e' loc_Exact) as [mrs'' e''].
  cbn [fst] in H2.
  destruct (shr_m mrs'') as [ | p | p]; try lia; cbn; auto.
  destruct (_ <=? _); reflexivity.
Qed.

Lemma binary_normalize_negative m e :
  m < 0 -> has_sign true (binary_normalize prec emax m e false).
Proof.
  intros H. destruct m as [ | p | p]; try lia. cbn [binary_normalize].
  unfold binary_round. destruct (shl_align p e _) as [mz ez].
  apply binary_round_aux_sign. lia.
Qed.

(** A negative result is an ordinary number that is not above zero. *)
Lemma negative_not_above_zero d :
  has_sign true d -> SFeqb d d = true /\ SFltb (S754_zero false) d = false.
Proof.
  destruct d as [s | s | | s m e]; cbn; try tauto; intros ->; split;
    try reflexivity.
  unfold SFeqb. cbn. rewrite Z.compare_refl, Pos.compare_cont_refl.
  reflexivity.
Qed.

(** The difference of two binary64 numbers, the first below the second,
    has the sign bit set.  Canonical mantissas make the comparison of the
    exponents decide between numbers of one sign. *)
Lemma SFsub_negative x y :
  valid_binary x = true -> valid_binary y = true ->
  SFltb x y = true -> has_sign true (SFsub prec emax x y).
Proof.
  intros Vx Vy. unfold SFltb.
  destruct x as [sx | sx | | sx mx ex], y as [sy | sy | | sy my ey]; cbn;
    try discriminate;
    try (destruct sx; try discriminate; try destruct sy; try discriminate;
         reflexivity);
    try (destruct sy; try discriminate; reflexivity).
  cbn in Vx, Vy. intros L. apply binary_normalize_negative.
  rewrite !shl_align_le by lia.
  assert (0 < Zpos mx * 2 ^ (ex - Z.min ex ey))
    by (apply Z.mul_pos_pos; [lia | apply Z.pow_pos_nonneg; lia]).
  assert (0 < Zpos my * 2 ^ (ey - Z.min ex ey))
    by (apply Z.mul_pos_pos; [lia | apply Z.pow_pos_nonneg; lia]).
  destruct sx, sy; cbn [cond_Zopp]; try discriminate; try lia.
  - destruct (Z.compare_spec ex ey) as [E | E | E]; try discriminate.
    + subst ey. rewrite Z.min_id, Z.sub_diag, !Z.mul_1_r.
      destruct (Pos.compare_cont Eq mx my) eqn:C; try discriminate.
      change (Pos.compare_cont Eq mx my) with (Pos.compare mx my) in C.
      apply Pos.compare_gt_iff in C. lia.
    + pose proof (lower_exponent_smaller _ _ _ _ Vy Vx E).
      rewrite Z.min_r, Z.sub_diag, Z.mul_1_r by lia. lia.
  - destruct (Z.compare_spec ex ey) as [E | E | E]; try discriminate.
    + subst ey. rewrite Z.min_id, Z.sub_diag, !Z.mul_1_r.
      change (Pos.compare_cont Eq mx my) with (Pos.compare mx my) in L.
      destruct (Pos.compare_spec mx my); try discriminate. lia.
    + pose proof (lower_exponent_smaller _ _ _ _ Vx Vy E).
      rewrite Z.min_l, Z.sub_diag, Z.mul_1_r by lia. lia.
Qed.

Lemma sub_not_above_zero (c a : float) :
  (c <? a)%float = true ->
  is_nan (c - a) = false /\ (0 <? c - a)%float = false.
Proof.
  intros H. rewrite ltb_spec in H.
  pose proof (SFsub_negative _ _ (Prim2SF_valid c) (Prim2SF_valid a) H) as S.
  change (SFsub prec emax) with SF64sub in S. rewrite <- sub_spec in S.
  apply negative_not_above_zero in S. destruct S as [E L].
  unfold is_nan. rewrite eqb_spec, E, ltb_spec. split; [reflexivity | exact L].
Qed.

(** [Math.max(0, c - a)] is [+0] when [c < a]. *)
Lemma Math_max_clamps (c a : float) :
  (c <? a)%float = true -> JS.Math_max 0%float (c - a)%float = 0%float.
Proof.
  intros H. destruct (sub_not_above_zero c a H) as [N L].
  unfold JS.Math_max. rewrite N, L. reflexivity.
Qed.

End Binary64.

(** ** [fetchData] *)

Lemma fetchData_returns w i st : outcome (run w fetchData i st) = Returned tt.
Proof. all_answers; reflexivity. Qed.

Lemma fetchData_no_mutation w i st : mutations (trace (run w fetchData i st)) = [].
Proof. all_answers; reflexivity. Qed.

Lemma fetchData_no_warn w i st : logs warn (trace (run w fetchData i st)) = [].
Proof. all_answers; reflexivity. Qed.

Lemma fetchData_keeps_forms w i st :
  packageForm (final (run w fetchData i st)) = packageForm st
  /\ walletAdjustment (final (run w fetchData i st)) = walletAdjustment st.
Proof. all_answers; split; reflexivity. Qed.

Lemma fetchData_toasts w i st t :
  In t (toasts (trace (run w fetchData i st))) ->
  t = users_warning \/ t = fetch_failure.
Proof. all_answers; intuition. Qed.

(** Nothing [fetchData] throws reaches a handler around it. *)
Lemma run_try_catch_fetchData w h i st :
  run w (try_catch fetchData h) i st = run w fetchData i st.
Proof. all_answers; reflexivity. Qed.

(** What is left of a handler that ends in [fetchData]. *)
Ltac refresh :=
  rewrite ?run_try_catch_fetchData;
  repeat match goal with
    | |- context [pick mutation_of (trace ?x)] =>
        change (pick mutation_of (trace x)) with (mutations (trace x))
    | |- context [pick toast_of (trace ?x)] =>
        change (pick toast_of (trace x)) with (toasts (trace x))
    | |- context [pick (log_of ?l) (trace ?x)] =>
        change (pick (log_of l) (trace x)) with (logs l (trace x))
    end;
  rewrite ?fetchData_returns, ?fetchData_no_mutation.

(** C8. Every run of [fetchData], whatever the store answers and whether a
    request throws or not, returns normally, ends with [setLoading(false)]
    and leaves the loading flag cleared. *)
Theorem fetchData_clears_loading w i st :
  let r := run w fetchData i st in
  outcome r = Returned tt
  /\ (exists tr, trace r = tr ++ [Told (setLoading false)])
  /\ loading (final r) = false.
Proof.
  all_answers; repeat split;
    match goal with
    | |- exists tr, ?l = _ => exists (removelast l); reflexivity
    end.
Qed.

(** X23. When the profiles select replies with an error and the other two
    selects reply as well, the three collections are set from what was
    returned (the empty list for missing data), the error is written to the
    console and the warning toast is shown. When the promise of one of the
    three selects is rejected, no collection is set, the reason is written
    to the console under "Error fetching data:" and the generic failure
    toast is shown. *)
Theorem fetchData_error_handling w i st :
  let r := run w fetchData i st in
  (forall ur pr wr e,
      w i _ the_profiles = Fulfilled ur -> error ur = Some e ->
      w (S i) _ the_packages = Fulfilled pr ->
      w (S (S i)) _ the_withdrawals = Fulfilled wr ->
      trace r =
        [Told (setLoading true);
         Told (console log "Fetching admin data..." None);
         Asked the_profiles (Fulfilled ur);
         Told (console log "Users data:" (Some (logged_users (data ur))));
         Told (console log "Users error:" (Some (logged_error (Some e))));
         Asked the_packages (Fulfilled pr);
         Asked the_withdrawals (Fulfilled wr);
         Told (setUsers (or_empty (data ur)));
         Told (setPackages (or_empty (option_map (map with_daily_income) (data pr))));
         Told (setWithdrawals (or_empty (data wr)));
         Told (console error_level "Users fetch error:" (Some (logged_error (Some e))));
         Told (toast users_warning);
         Told (setLoading false)]
      /\ users (final r) = or_empty (data ur)
      /\ packages (final r) = or_empty (option_map (map with_daily_income) (data pr))
      /\ withdrawals (final r) = or_empty (data wr))
  /\ (forall e,
         w i _ the_profiles = Rejected e
         \/ (exists ur, w i _ the_profiles = Fulfilled ur
                        /\ w (S i) _ the_packages = Rejected e)
         \/ (exists ur pr, w i _ the_profiles = Fulfilled ur
                           /\ w (S i) _ the_packages = Fulfilled pr
                           /\ w (S (S i)) _ the_withdrawals = Rejected e) ->
         logs error_level (trace r)
           = [("Error fetching data:", Some (logged_error (Some e)))]
         /\ toasts (trace r) = [fetch_failure]
         /\ users (final r) = users st
         /\ packages (final r) = packages st
         /\ withdrawals (final r) = withdrawals st).
Proof.
  split.
  - intros ur pr wr e Hu He Hp Hw. cbn in Hu, Hp, Hw |- *.
    rewrite Hu. cbn. rewrite Hp. cbn. rewrite Hw. cbn. rewrite He. cbn.
    repeat split; reflexivity.
  - intros e [Hu | [(ur & Hu & Hp) | (ur & pr & Hu & Hp & Hw)]];
      cbn in Hu |- *; rewrite Hu; cbn;
      try (cbn in Hp; rewrite Hp; cbn); try (cbn in Hw; rewrite Hw; cbn);
      repeat split; reflexivity.
Qed.

Lemma fetchData_error_handling_witness :
  let r := run (refusing profiles) fetchData 0 initial_dashboard in
  let r' := run (failing_at 1) fetchData 0 initial_dashboard in
  (toasts (trace r) = [users_warning] /\ users (final r) = [])
  /\ toasts (trace r') = [fetch_failure].
Proof.
  cbv zeta. split.
  - pose proof (proj1 (fetchData_error_handling (refusing profiles) 0 initial_dashboard)
                  _ _ _ _ eq_refl eq_refl eq_refl eq_refl) as (Htr & Hu & _).
    split; [rewrite Htr | rewrite Hu]; reflexivity.
  - refine (proj1 (proj2 (proj2 (fetchData_error_handling (failing_at 1) 0
                                   initial_dashboard) unreachable _))).
    right; left. eexists. split; reflexivity.
Defined.

(** C4. When the packages select, or the withdrawals select, replies with
    an error, [fetchData] as written writes nothing to [console.error] and
    shows no toast: the error of the reply is bound and never read, so it
    is neither logged nor reported as a failure, and the function returns
    as after a fetch without errors. *)
Lemma fetchData_drops_returned_error :
  let w := refusing investment_packages in
  let r := run w fetchData 0 initial_dashboard in
  let w' := refusing withdrawal_requests in
  let r' := run w' fetchData 0 initial_dashboard in
  (w 1 _ the_packages = Fulfilled {| data := None; error := Some denied |}
   /\ logs error_level (trace r) = []
   /\ toasts (trace r) = []
   /\ outcome r = Returned tt)
  /\ (w' 2 _ the_withdrawals = Fulfilled {| data := None; error := Some denied |}
      /\ logs error_level (trace r') = []
      /\ toasts (trace r') = []
      /\ outcome r' = Returned tt).
Proof. cbn. repeat split. Qed.

(** ** [handleUserDeletion] *)

Lemma fetch_toast_not_deletion_failure w i st :
  ~ In user_deletion_failure (toasts (trace (run w fetchData i st))).
Proof.
  intros H. apply fetchData_toasts in H. destruct H; discriminate.
Qed.

(** C5. After a confirmed deletion of user [userId] the mutations of the
    trace have one of four shapes: the delete of the investments alone,
    rejected; that delete fulfilled and the delete of the withdrawals
    rejected; both fulfilled, then the delete of the profile, which did not
    succeed; or both fulfilled, the delete of the profile fulfilled with no
    error, then the removal of the identity.  So the profile delete is
    requested only after the two dependent deletes were answered, and the
    removal of the identity only after the profile delete succeeded.  In
    the last shape, however the removal settles, no further mutation is
    requested, the handler returns normally, and what it shows is the
    success toast followed by the toasts of [fetchData], never the failure
    toast; a rejected removal is written to [console.warn] and nowhere
    else. *)
Theorem handleUserDeletion_cascade (w : world) i st userId userName :
  w i _ (confirm_deletion userName) = true ->
  let r := run w (handleUserDeletion userId userName) i st in
  let ms := mutations (trace r) in
  (exists e, ms = [(delete_investments userId, Rejected e)])
  \/ (exists r1 e,
        ms = [(delete_investments userId, Fulfilled r1);
              (delete_withdrawals userId, Rejected e)])
  \/ (exists r1 r2 s,
        ms = [(delete_investments userId, Fulfilled r1);
              (delete_withdrawals userId, Fulfilled r2);
              (delete_profile userId, s)]
        /\ succeeded s = false)
  \/ (exists r1 r2 r3 s,
        ms = [(delete_investments userId, Fulfilled r1);
              (delete_withdrawals userId, Fulfilled r2);
              (delete_profile userId, Fulfilled r3);
              (auth_admin_deleteUser userId, s)]
        /\ error r3 = None
        /\ outcome r = Returned tt
        /\ toasts (trace r)
           = user_deleted userName
               :: toasts (trace (run w fetchData (5 + i) st))
        /\ ~ In user_deletion_failure (toasts (trace r))
        /\ logs error_level (trace r)
           = logs error_level (trace (run w fetchData (5 + i) st))
        /\ logs warn (trace r)
           = match s with
             | Rejected e =>
                 [("Could not delete auth user:", Some (logged_error (Some e)))]
             | Fulfilled _ => []
             end).
Proof.
  intros Hc. unfold confirm_deletion in Hc. step. rewrite Hc. step.
  repeat answer; refresh.
  - right; right; left. exists r, r0, (Fulfilled r1).
    split; [reflexivity | cbn; rewrite Heqo; reflexivity].
  - right; right; right. exists r, r0, r1, (Fulfilled r2).
    repeat split; auto using fetchData_no_warn.
    intros [H | H]; [discriminate | ].
    exact (fetch_toast_not_deletion_failure _ _ _ H).
  - right; right; right. exists r, r0, r1, (Rejected reason).
    repeat split; auto.
    + intros [H | H]; [discriminate | ].
      exact (fetch_toast_not_deletion_failure _ _ _ H).
    + now rewrite fetchData_no_warn.
  - right; right; left. exists r, r0, (Rejected reason). split; reflexivity.
  - right; left. exists r, reason. reflexivity.
  - left. exists reason. reflexivity.
Qed.

Lemma handleUserDeletion_cascade_witness :
  quiet 0 _ (confirm_deletion "Ada Lovelace") = true
  /\ map fst (mutations (trace (run quiet (handleUserDeletion "u1" "Ada Lovelace") 0
                                  initial_dashboard)))
     = [delete_investments "u1"; delete_withdrawals "u1"; delete_profile "u1";
        auth_admin_deleteUser "u1"].
Proof.
  split; [reflexivity | ].
  destruct (handleUserDeletion_cascade quiet 0 initial_dashboard "u1" "Ada Lovelace"
              eq_refl)
    as [(e & H) | [(r1 & e & H) | [(r1 & r2 & s & H & _) | (r1 & r2 & r3 & s & H & _)]]];
    try discriminate H.
  rewrite H. reflexivity.
Defined.

(** C9. Once the deletion is confirmed and the two dependent deletes are
    answered, whatever their replies hold (an error or none), the delete of
    the profile is requested next; and the failure path (the "Failed to
    delete user." toast) is taken exactly when the delete of the profile
    itself did not succeed. *)
Theorem handleUserDeletion_ignores_dependent_errors
  (w : world) i st userId userName r1 r2 :
  w i _ (confirm_deletion userName) = true ->
  w (1 + i) _ (mutate (delete_investments userId)) = Fulfilled r1 ->
  w (2 + i) _ (mutate (delete_withdrawals userId)) = Fulfilled r2 ->
  let r := run w (handleUserDeletion userId userName) i st in
  let s := w (3 + i) _ (mutate (delete_profile userId)) in
  (exists rest,
      mutations (trace r)
      = (delete_investments userId, Fulfilled r1)
          :: (delete_withdrawals userId, Fulfilled r2)
          :: (delete_profile userId, s) :: rest)
  /\ (In user_deletion_failure (toasts (trace r)) <-> succeeded s = false).
Proof.
  unfold confirm_deletion, delete_investments, delete_withdrawals, delete_profile.
  intros Hc H1 H2. step. rewrite Hc. step. cbn in H1, H2. rewrite H1. step.
  rewrite H2. step.
  repeat answer;
    refresh;
    (split; [eexists; reflexivity | ]); cbn; rewrite ?Heqo;
    try (split; [reflexivity | intros _; now left]).
  all: split; [ | discriminate ].
  all: intros [H | H]; [discriminate | ].
  all: now apply fetch_toast_not_deletion_failure in H.
Qed.

Lemma handleUserDeletion_ignores_dependent_errors_witness :
  let r := run dependents_denied (handleUserDeletion "u1" "Ada Lovelace") 0
             initial_dashboard in
  (exists rest,
      mutations (trace r)
      = (delete_investments "u1", Fulfilled refused_reply)
          :: (delete_withdrawals "u1", Fulfilled refused_reply)
          :: (delete_profile "u1", Fulfilled {| data := None; error := None |})
          :: rest)
  /\ ~ In user_deletion_failure (toasts (trace r)).
Proof.
  destruct (handleUserDeletion_ignores_dependent_errors dependents_denied 0
              initial_dashboard "u1" "Ada Lovelace" refused_reply refused_reply
              eq_refl eq_refl eq_refl) as [H1 H2].
  split; [exact H1 | ].
  intros H. apply H2 in H. discriminate H.
Defined.

(** ** [handleWithdrawalAction] *)

(** C6. For every withdrawal id and decision, in every state of the page and
    whatever the store holds, the handler requests exactly one mutation: the
    update of the row with that id, with status "approved" for [approve] and
    "rejected" for [reject], and the time it read as [processed_at].  When
    the update succeeds the handler shows its toast and goes on to
    [fetchData]; when it does not, the failure toast is all that follows.
    Only the clock is read before the update: neither the page state nor
    the store is, so the current status of the record plays no part. *)
Theorem handleWithdrawalAction_decides (w : world) i st withdrawalId a :
  let r := run w (handleWithdrawalAction withdrawalId a) i st in
  let now := w i _ Date_toISOString in
  let update :=
    update_eq withdrawal_requests
      (patch_status match a with approve => "approved" | reject => "rejected" end now)
      "id" withdrawalId in
  let s := w (1 + i) _ (mutate update) in
  mutations (trace r) = [(update, s)]
  /\ (succeeded s = true ->
      trace r
      = [Asked Date_toISOString now; Asked (mutate update) s;
         Told (toast (withdrawal_processed a))]
          ++ trace (run w fetchData (2 + i) st))
  /\ (succeeded s = false ->
      exists e,
        trace r
        = [Asked Date_toISOString now; Asked (mutate update) s;
           Told (console error_level "Error processing withdrawal:"
                   (Some (logged_error (Some e))));
           Told (toast withdrawal_failure)]).
Proof.
  step. repeat answer;
    refresh; cbn; rewrite ?Heqo; repeat split; try discriminate; try reflexivity;
    intros _; eexists; reflexivity.
Qed.

Lemma handleWithdrawalAction_decides_witness :
  let r := run quiet (handleWithdrawalAction "w7" approve) 0 initial_dashboard in
  mutations (trace r)
  = [(update_eq withdrawal_requests
        (patch_status "approved" "2025-01-01T00:00:00.000Z") "id" "w7",
      Fulfilled {| data := None; error := None |})]
  /\ trace r
     = [Asked Date_toISOString "2025-01-01T00:00:00.000Z";
        Asked (mutate (update_eq withdrawal_requests
                         (patch_status "approved" "2025-01-01T00:00:00.000Z")
                         "id" "w7"))
          (Fulfilled {| data := None; error := None |});
        Told (toast (withdrawal_processed approve))]
         ++ trace (run quiet fetchData 2 initial_dashboard).
Proof.
  destruct (handleWithdrawalAction_decides quiet 0 initial_dashboard "w7" approve)
    as (H1 & H2 & _).
  split; [exact H1 | exact (H2 eq_refl)].
Defined.

(** ** [handlePackageCreate] *)

Lemma is_empty_false (s : string) : s <> "" <-> JS.is_empty s = false.
Proof. destruct s; cbn; split; congruence. Qed.

Lemma is_empty_true (s : string) : s = "" <-> JS.is_empty s = true.
Proof. destruct s; cbn; split; congruence. Qed.

(** C7. When the four text fields of the form are filled and the insert
    succeeds, the row inserted has the name and the package type of the
    form, [parseFloat] of its amount and return amount, [parseInt] of its
    duration and [max_purchases] 3; the handler then shows the toast, resets
    the form to its initial value and runs [fetchData], which leaves the
    form as reset. *)
Theorem handlePackageCreate_inserts (w : world) i st :
  let form := packageForm st in
  PackageForm.name form <> "" ->
  PackageForm.amount form <> "" ->
  PackageForm.return_amount form <> "" ->
  PackageForm.duration_days form <> "" ->
  let row :=
    {| NewPackage.name := PackageForm.name form;
       NewPackage.amount := JS.parseFloat (PackageForm.amount form);
       NewPackage.return_amount := JS.parseFloat (PackageForm.return_amount form);
       NewPackage.duration_days := JS.parseInt (PackageForm.duration_days form);
       NewPackage.max_purchases := 3%float;
       NewPackage.package_type := PackageForm.package_type form |} in
  let s := w i _ (mutate (insert investment_packages row)) in
  succeeded s = true ->
  let r := run w (handlePackageCreate st) i st in
  trace r
  = [Asked (mutate (insert investment_packages row)) s;
     Told (toast (package_created (PackageForm.package_type form)));
     Told (setPackageForm PackageForm.initial)]
      ++ trace (run w fetchData (1 + i) (apply (setPackageForm PackageForm.initial) st))
  /\ mutations (trace r) = [(insert investment_packages row, s)]
  /\ packageForm (final r) = PackageForm.initial.
Proof.
  intros form H1 H2 H3 H4 row s Hs.
  apply is_empty_false in H1, H2, H3, H4.
  assert (Hrow : row = new_package form) by reflexivity.
  clearbody row. subst row. subst s.
  unfold handlePackageCreate. cbv zeta. fold form. rewrite H1, H2, H3, H4.
  step. destruct (w i _ _) as [rep | e]; [ | discriminate Hs].
  cbn in Hs. step. destruct (error rep); [discriminate Hs | ]. step.
  refresh.
  repeat split. apply fetchData_keeps_forms.
Qed.

Lemma handlePackageCreate_inserts_witness :
  let r := run quiet (handlePackageCreate (with_package_form premium)) 0
             (with_package_form premium) in
  mutations (trace r)
  = [(insert investment_packages
        {| NewPackage.name := "Premium"; NewPackage.amount := 50000%float;
           NewPackage.return_amount := 65000%float;
           NewPackage.duration_days := 30%float;
           NewPackage.max_purchases := 3%float;
           NewPackage.package_type := daily |},
      Fulfilled {| data := None; error := None |})]
  /\ packageForm (final r) = PackageForm.initial.
Proof.
  destruct (handlePackageCreate_inserts quiet 0 (with_package_form premium))
    as (_ & Hm & Hf); try discriminate; try reflexivity.
  split; [rewrite Hm; vm_compute; reflexivity | exact Hf].
Defined.

(** X22. The guard of [handlePackageCreate] looks for empty text only: when
    the name, the amount, the return amount or the duration is the empty
    string the handler shows "Invalid Input" and does nothing else; when
    none is empty the insert is requested first, whatever the texts hold. *)
Theorem handlePackageCreate_validation (w : world) i st :
  let form := packageForm st in
  let r := run w (handlePackageCreate st) i st in
  (PackageForm.name form = "" \/ PackageForm.amount form = ""
   \/ PackageForm.return_amount form = "" \/ PackageForm.duration_days form = "" ->
   trace r = [Told (toast invalid_package)] /\ mutations (trace r) = [])
  /\ (PackageForm.name form <> "" /\ PackageForm.amount form <> ""
      /\ PackageForm.return_amount form <> "" /\ PackageForm.duration_days form <> "" ->
      exists rest,
        trace r
        = Asked (mutate (insert investment_packages (new_package form)))
            (w i _ (mutate (insert investment_packages (new_package form))))
            :: rest).
Proof.
  intros form. unfold handlePackageCreate. cbv zeta. fold form. split.
  - intros H.
    assert (E : JS.is_empty (PackageForm.name form)
                || JS.is_empty (PackageForm.amount form)
                || JS.is_empty (PackageForm.return_amount form)
                || JS.is_empty (PackageForm.duration_days form) = true).
    { rewrite !orb_true_iff, <- !is_empty_true. tauto. }
    rewrite E. split; reflexivity.
  - intros (H1 & H2 & H3 & H4). apply is_empty_false in H1, H2, H3, H4.
    rewrite H1, H2, H3, H4. step. eexists. reflexivity.
Qed.

Lemma handlePackageCreate_validation_witness :
  trace (run quiet (handlePackageCreate (with_package_form no_package_amount)) 0
           (with_package_form no_package_amount))
  = [Told (toast invalid_package)]
  /\ exists rest,
      trace (run quiet (handlePackageCreate (with_package_form premium)) 0
               (with_package_form premium))
      = Asked (mutate (insert investment_packages (new_package premium)))
          (Fulfilled {| data := None; error := None |}) :: rest.
Proof.
  split.
  - exact (proj1 (proj1 (handlePackageCreate_validation quiet 0
                           (with_package_form no_package_amount))
                    (or_intror (or_introl eq_refl)))).
  - refine (proj2 (handlePackageCreate_validation quiet 0
                     (with_package_form premium)) _).
    repeat split; discriminate.
Defined.

(** *** The form as the inputs fill it *)







(** ** [handleWalletAdjustment] *)

Section Wallet.

Variable toLocaleString : JS.number -> string.


(** C1. When the form has a user id and an amount and the user is found
    among the users of the page, exactly one mutation is requested, the
    update of that profile, and the balance it writes is [current + a] for
    [add] and [Math.max(0, current - a)] for [subtract], [a] being
    [parseFloat] of the amount text.  For [subtract] with [current < a] the
    balance written is 0, which is not below zero. *)
Theorem handleWalletAdjustment_balance (w : world) i st user :
  let form := walletAdjustment st in
  WalletAdjustment.userId form <> "" ->
  WalletAdjustment.amount form <> "" ->
  selected st = Some user ->
  let a := JS.parseFloat (WalletAdjustment.amount form) in
  let current := Profile.wallet_balance user in
  let written :=
    match WalletAdjustment.type form with
    | WalletAdjustment.add => (current + a)%float
    | WalletAdjustment.subtract => JS.Math_max 0%float (current - a)%float
    end in
  let update :=
    update_eq profiles (patch_wallet_balance written) "id"
      (WalletAdjustment.userId form) in
  mutations (trace (run w (handleWalletAdjustment toLocaleString st) i st))
  = [(update, w i _ (mutate update))]
  /\ (WalletAdjustment.type form = WalletAdjustment.subtract ->
      (current <? a)%float = true ->
      written = 0%float /\ (written <? 0)%float = false).
Proof.
  intros form H1 H2 Hu a current written update.
  apply is_empty_false in H1, H2. unfold selected in Hu.
  assert (Hw : written = newBalance form user) by reflexivity.
  split.
  - subst update. clearbody written. subst written form.
    unfold handleWalletAdjustment. cbv zeta. rewrite H1, H2, Hu.
    step. repeat answer;
      refresh;
      reflexivity.
  - intros Ht Hlt. subst written. rewrite Ht.
    rewrite (Binary64.Math_max_clamps _ _ Hlt). split; reflexivity.
Qed.

(** C10. When the form has a user id and an amount but no user of the page
    has that id, the handler does nothing at all: its trace is empty (no
    request, no toast, no console output), the state is unchanged and it
    returns normally. *)
Theorem handleWalletAdjustment_unknown_user (w : world) i st :
  let form := walletAdjustment st in
  WalletAdjustment.userId form <> "" ->
  WalletAdjustment.amount form <> "" ->
  selected st = None ->
  let r := run w (handleWalletAdjustment toLocaleString st) i st in
  trace r = [] /\ final r = st /\ outcome r = Returned tt.
Proof.
  intros form H1 H2 Hu. apply is_empty_false in H1, H2.
  unfold selected in Hu. subst form.
  unfold handleWalletAdjustment. cbv zeta. rewrite H1, H2, Hu.
  repeat split.
Qed.

(** C3, as the code has it. Before any request the handler checks that the
    user id and the amount text are not empty, and shows "Invalid Input" and
    does nothing else when one is.  The amount is not checked further: when
    both are present and the user is found, the update of the balance is
    requested first, whatever [parseFloat] makes of the amount. *)
Theorem handleWalletAdjustment_validation (w : world) i st :
  let form := walletAdjustment st in
  let r := run w (handleWalletAdjustment toLocaleString st) i st in
  (WalletAdjustment.userId form = "" \/ WalletAdjustment.amount form = "" ->
   trace r = [Told (toast invalid_adjustment)] /\ mutations (trace r) = [])
  /\ (forall user,
         WalletAdjustment.userId form <> "" ->
         WalletAdjustment.amount form <> "" ->
         selected st = Some user ->
         let update :=
           update_eq profiles (patch_wallet_balance (newBalance form user)) "id"
             (WalletAdjustment.userId form) in
         exists rest, trace r = Asked (mutate update) (w i _ (mutate update)) :: rest).
Proof.
  intros form. unfold handleWalletAdjustment. cbv zeta. fold form. split.
  - intros H.
    assert (E : JS.is_empty (WalletAdjustment.userId form)
                || JS.is_empty (WalletAdjustment.amount form) = true).
    { rewrite !orb_true_iff, <- !is_empty_true. tauto. }
    rewrite E. split; reflexivity.
  - intros user H1 H2 Hu. apply is_empty_false in H1, H2.
    unfold selected in Hu. subst form.
    rewrite H1, H2, Hu. step. eexists. reflexivity.
Qed.

End Wallet.

Lemma handleWalletAdjustment_balance_witness :
  mutations (trace (run quiet (handleWalletAdjustment plain (with_wallet_form overdraw)) 0
                      (with_wallet_form overdraw)))
  = [(update_eq profiles (patch_wallet_balance 0%float) "id" "u1",
      Fulfilled {| data := None; error := None |})].
Proof.
  pose proof (handleWalletAdjustment_balance plain quiet 0 (with_wallet_form overdraw)
                ada ltac:(discriminate) ltac:(discriminate) eq_refl) as [Hm Hz].
  destruct (Hz eq_refl eq_refl) as [Hzero _].
  rewrite Hm. cbv zeta in Hzero. rewrite Hzero. reflexivity.
Defined.

Lemma handleWalletAdjustment_unknown_user_witness :
  let r := run quiet (handleWalletAdjustment plain (with_wallet_form stranger)) 0
             (with_wallet_form stranger) in
  trace r = [] /\ final r = with_wallet_form stranger /\ outcome r = Returned tt.
Proof.
  exact (handleWalletAdjustment_unknown_user plain quiet 0 (with_wallet_form stranger)
           ltac:(discriminate) ltac:(discriminate) eq_refl).
Defined.

Lemma handleWalletAdjustment_validation_witness :
  trace (run quiet (handleWalletAdjustment plain (with_wallet_form no_amount)) 0
           (with_wallet_form no_amount))
  = [Told (toast invalid_adjustment)]
  /\ exists rest,
      trace (run quiet (handleWalletAdjustment plain (with_wallet_form credit)) 0
               (with_wallet_form credit))
      = Asked (mutate (update_eq profiles (patch_wallet_balance 12500%float) "id" "u1"))
          (Fulfilled {| data := None; error := None |}) :: rest.
Proof.
  split.
  - exact (proj1 (proj1 (handleWalletAdjustment_validation plain quiet 0
                           (with_wallet_form no_amount))
                    (or_intror eq_refl))).
  - exact (proj2 (handleWalletAdjustment_validation plain quiet 0
                    (with_wallet_form credit))
             ada ltac:(discriminate) ltac:(discriminate) eq_refl).
Defined.

(** C3, as stated, fails: an amount that is not positive ("-5") or that
    [parseFloat] cannot read ("abc") is not rejected: the update is
    requested, with 10000 + (-5) in the first case and [NaN] in the second,
    and the success toast follows. *)
Lemma handleWalletAdjustment_accepts_any_amount :
  let r := run quiet (handleWalletAdjustment plain (with_wallet_form negative)) 0
             (with_wallet_form negative) in
  let r' := run quiet (handleWalletAdjustment plain (with_wallet_form unreadable)) 0
              (with_wallet_form unreadable) in
  ((JS.parseFloat (WalletAdjustment.amount negative) <=? 0)%float = true
   /\ mutations (trace r)
      = [(update_eq profiles (patch_wallet_balance 9995%float) "id" "u1",
          Fulfilled {| data := None; error := None |})]
   /\ toasts (trace r) = [wallet_adjusted plain negative])
  /\ (is_nan (JS.parseFloat (WalletAdjustment.amount unreadable)) = true
      /\ mutations (trace r')
         = [(update_eq profiles (patch_wallet_balance nan) "id" "u1",
             Fulfilled {| data := None; error := None |})]
      /\ toasts (trace r') = [wallet_adjusted plain unreadable]).
Proof. vm_compute. repeat split. Qed.

(** * Further properties *)

(** ** No handler lets an error out *)

(** X18. The four handlers above and [handlePackageDelete] return normally
    in every world: whatever a request replies, and whether its promise is
    rejected or not, nothing they throw is left uncaught. *)
Theorem handlers_never_throw (toLocaleString : JS.number -> string) (w : world) i st :
  (forall userId userName,
      outcome (run w (handleUserDeletion userId userName) i st) = Returned tt)
  /\ (forall withdrawalId a,
         outcome (run w (handleWithdrawalAction withdrawalId a) i st) = Returned tt)
  /\ outcome (run w (handlePackageCreate st) i st) = Returned tt
  /\ outcome (run w (handleWalletAdjustment toLocaleString st) i st) = Returned tt
  /\ (forall packageId packageName,
         outcome (run w (handlePackageDelete packageId packageName) i st) = Returned tt).
Proof.
  repeat split; intros.
  - step. destruct (w i _ _); step; [ | reflexivity].
    repeat answer; refresh; reflexivity.
  - step. repeat answer; refresh; reflexivity.
  - unfold handlePackageCreate. cbv zeta. destruct (_ || _); [reflexivity | ].
    step. repeat answer; refresh; reflexivity.
  - unfold handleWalletAdjustment. cbv zeta. destruct (_ || _); [reflexivity | ].
    destruct (find _ _); [ | reflexivity].
    step. repeat answer; refresh; reflexivity.
  - step. destruct (w i _ _); step; [ | reflexivity].
    repeat answer; refresh; reflexivity.
Qed.

(** ** [handleUserDeletion], the other paths *)

(** X1. When the administrator declines the confirmation, the handler asks
    nothing else and tells nothing: no request is made, no toast is shown
    and the state is unchanged. *)
Theorem handleUserDeletion_declined (w : world) i st userId userName :
  w i _ (confirm_deletion userName) = false ->
  let r := run w (handleUserDeletion userId userName) i st in
  trace r = [Asked (confirm_deletion userName) false]
  /\ final r = st
  /\ outcome r = Returned tt.
Proof.
  intros Hc. unfold confirm_deletion in *. step. rewrite Hc. repeat split.
Qed.

Lemma handleUserDeletion_declined_witness :
  mutations (trace (run declining (handleUserDeletion "u1" "Ada Lovelace") 0
                      initial_dashboard)) = []
  /\ final (run declining (handleUserDeletion "u1" "Ada Lovelace") 0 initial_dashboard)
     = initial_dashboard.
Proof.
  destruct (handleUserDeletion_declined declining 0 initial_dashboard "u1"
              "Ada Lovelace" eq_refl) as (Ht & Hf & _).
  split; [rewrite Ht; reflexivity | exact Hf].
Defined.

(** X2. When a confirmed deletion ends with the "Failed to delete user."
    toast, the error was written to [console.error], that toast is the only
    one, [fetchData] was not run (nothing else was told), the removal of the
    identity was never requested, and the state of the page is unchanged. *)
Theorem handleUserDeletion_failure (w : world) i st userId userName :
  w i _ (confirm_deletion userName) = true ->
  let r := run w (handleUserDeletion userId userName) i st in
  In user_deletion_failure (toasts (trace r)) ->
  (exists e,
      commands (trace r)
      = [console error_level "Error deleting user:" (Some (logged_error (Some e)));
         toast user_deletion_failure])
  /\ ~ In (auth_admin_deleteUser userId) (map fst (mutations (trace r)))
  /\ final r = st.
Proof.
  intros Hc. unfold confirm_deletion in Hc. step. rewrite Hc. step.
  repeat answer; refresh; intros H.
  2, 3: destruct H as [H | H]; [discriminate H | ];
    now apply fetch_toast_not_deletion_failure in H.
  all: split; [eexists; reflexivity | ].
  all: split; [ | reflexivity].
  all: cbn; intuition discriminate.
Qed.

Lemma handleUserDeletion_failure_witness :
  let r := run (failing_at 3) (handleUserDeletion "u1" "Ada Lovelace") 0
             initial_dashboard in
  map fst (mutations (trace r))
  = [delete_investments "u1"; delete_withdrawals "u1"; delete_profile "u1"]
  /\ commands (trace r)
     = [console error_level "Error deleting user:"
          (Some (logged_error (Some unreachable)));
        toast user_deletion_failure]
  /\ final r = initial_dashboard.
Proof.
  cbv zeta.
  destruct (handleUserDeletion_failure (failing_at 3) 0 initial_dashboard "u1"
              "Ada Lovelace" eq_refl (or_introl eq_refl)) as ((e & He) & _ & Hf).
  split; [reflexivity | ]. split; [ | exact Hf].
  rewrite He. vm_compute in He. injection He as He. subst e. reflexivity.
Defined.

(** ** [handlePackageDelete] *)

(** X12. Deleting a package asks for confirmation first.  Declined, nothing
    else happens.  Confirmed, the one mutation is the delete of the row of
    [investment_packages] with that id; when it succeeds the toast is shown
    and [fetchData] runs, and when it does not the error is written to
    [console.error], the failure toast is shown, [fetchData] is not run and
    the state is unchanged. *)
Theorem handlePackageDelete_deletes (w : world) i st packageId packageName :
  let r := run w (handlePackageDelete packageId packageName) i st in
  let confirmed := w i _ (confirm_package_deletion packageName) in
  let delete := delete_eq investment_packages "id" packageId in
  let s := w (1 + i) _ (mutate delete) in
  (confirmed = false ->
   trace r = [Asked (confirm_package_deletion packageName) false] /\ final r = st)
  /\ (confirmed = true ->
      mutations (trace r) = [(delete, s)]
      /\ (succeeded s = true ->
          trace r
          = [Asked (confirm_package_deletion packageName) true;
             Asked (mutate delete) s;
             Told (toast (package_deleted packageName))]
              ++ trace (run w fetchData (2 + i) st))
      /\ (succeeded s = false ->
          (exists e,
              trace r
              = [Asked (confirm_package_deletion packageName) true;
                 Asked (mutate delete) s;
                 Told (console error_level "Error deleting package:"
                         (Some (logged_error (Some e))));
                 Told (toast package_deletion_failure)])
          /\ final r = st)).
Proof.
  unfold confirm_package_deletion. step.
  destruct (w i _ _); step; (split; intros Hc); try discriminate Hc;
    try (split; reflexivity).
  repeat answer; refresh; step; rewrite ?Heqo; repeat split;
    try discriminate; try reflexivity; eexists; reflexivity.
Qed.

Lemma handlePackageDelete_deletes_witness :
  trace (run declining (handlePackageDelete "p1" "Premium") 0 initial_dashboard)
  = [Asked (confirm_package_deletion "Premium") false]
  /\ mutations (trace (run quiet (handlePackageDelete "p1" "Premium") 0
                         initial_dashboard))
     = [(delete_eq investment_packages "id" "p1",
         Fulfilled {| data := None; error := None |})]
  /\ toasts (trace (run (failing_at 1) (handlePackageDelete "p1" "Premium") 0
                      initial_dashboard))
     = [package_deletion_failure].
Proof.
  split; [ | split].
  - exact (proj1 (proj1 (handlePackageDelete_deletes declining 0 initial_dashboard
                           "p1" "Premium") eq_refl)).
  - exact (proj1 (proj2 (handlePackageDelete_deletes quiet 0 initial_dashboard
                           "p1" "Premium") eq_refl)).
  - destruct (proj2 (handlePackageDelete_deletes (failing_at 1) 0 initial_dashboard
                       "p1" "Premium") eq_refl) as (_ & _ & H).
    destruct (H eq_refl) as ((e & He) & _). rewrite He. reflexivity.
Defined.

(** ** [handleWalletAdjustment] and [handlePackageCreate], after the write *)

Section AfterTheWrite.

Variable toLocaleString : JS.number -> string.

(** X3. Once the balance update is requested, its reply decides the rest.
    When it succeeds the handler shows "Wallet Adjusted", resets the form to
    its initial value and runs [fetchData], and the form ends as reset.
    When it does not, the error is written to [console.error], the failure
    toast is shown, [fetchData] is not run and the state, the form with
    it, is unchanged. *)
Theorem handleWalletAdjustment_after_update (w : world) i st user :
  let form := walletAdjustment st in
  WalletAdjustment.userId form <> "" ->
  WalletAdjustment.amount form <> "" ->
  selected st = Some user ->
  let r := run w (handleWalletAdjustment toLocaleString st) i st in
  let update :=
    update_eq profiles (patch_wallet_balance (newBalance form user)) "id"
      (WalletAdjustment.userId form) in
  let s := w i _ (mutate update) in
  (succeeded s = true ->
   trace r
   = [Asked (mutate update) s;
      Told (toast (wallet_adjusted toLocaleString form));
      Told (setWalletAdjustment WalletAdjustment.initial)]
       ++ trace (run w fetchData (1 + i)
                   (apply (setWalletAdjustment WalletAdjustment.initial) st))
   /\ walletAdjustment (final r) = WalletAdjustment.initial)
  /\ (succeeded s = false ->
      (exists e,
          trace r
          = [Asked (mutate update) s;
             Told (console error_level "Error adjusting wallet:"
                     (Some (logged_error (Some e))));
             Told (toast adjustment_failure)])
      /\ final r = st).
Proof.
  intros form H1 H2 Hu. apply is_empty_false in H1, H2.
  unfold selected in Hu. subst form.
  unfold handleWalletAdjustment. cbv zeta. rewrite H1, H2, Hu. step.
  repeat answer; refresh; step; rewrite ?Heqo; repeat split;
    try discriminate; try reflexivity;
    try apply fetchData_keeps_forms; eexists; reflexivity.
Qed.

(** X4. When the insert of a filled-in package form does not succeed, the
    error is written to [console.error], the failure toast is shown,
    [fetchData] is not run and the state is unchanged: the form keeps what
    was typed. *)
Theorem handlePackageCreate_failure (w : world) i st :
  let form := packageForm st in
  PackageForm.name form <> "" ->
  PackageForm.amount form <> "" ->
  PackageForm.return_amount form <> "" ->
  PackageForm.duration_days form <> "" ->
  let s := w i _ (mutate (insert investment_packages (new_package form))) in
  succeeded s = false ->
  let r := run w (handlePackageCreate st) i st in
  (exists e,
      trace r
      = [Asked (mutate (insert investment_packages (new_package form))) s;
         Told (console error_level "Error creating package:"
                 (Some (logged_error (Some e))));
         Told (toast package_failure)])
  /\ final r = st.
Proof.
  intros form H1 H2 H3 H4 s Hs. apply is_empty_false in H1, H2, H3, H4.
  subst s form. revert Hs.
  unfold handlePackageCreate. cbv zeta. rewrite H1, H2, H3, H4. step.
  repeat answer; step; rewrite ?Heqo; try discriminate; intros _;
    (split; [eexists | ]; reflexivity).
Qed.

(** X5. A form that was just submitted with success cannot be submitted
    again as it stands: in the state a successful [handlePackageCreate]
    ends in, the handler shows "Invalid Input" and requests nothing. *)
Theorem handlePackageCreate_not_twice (w w' : world) i j st :
  let form := packageForm st in
  PackageForm.name form <> "" ->
  PackageForm.amount form <> "" ->
  PackageForm.return_amount form <> "" ->
  PackageForm.duration_days form <> "" ->
  succeeded (w i _ (mutate (insert investment_packages (new_package form)))) = true ->
  let st' := final (run w (handlePackageCreate st) i st) in
  trace (run w' (handlePackageCreate st') j st') = [Told (toast invalid_package)].
Proof.
  intros form H1 H2 H3 H4 Hs st'. apply is_empty_false in H1, H2, H3, H4.
  assert (E : packageForm st' = PackageForm.initial).
  { subst st' form. revert Hs.
    unfold handlePackageCreate. cbv zeta. rewrite H1, H2, H3, H4. step.
    repeat answer; step; rewrite ?Heqo; try discriminate; intros _.
    refresh. apply fetchData_keeps_forms. }
  unfold handlePackageCreate at 1. cbv zeta. rewrite E. reflexivity.
Qed.

(** X6. The same for the wallet form: in the state a successful
    [handleWalletAdjustment] ends in, the handler shows "Invalid Input" and
    requests nothing, so one adjustment is not applied twice by a second
    click. *)
Theorem handleWalletAdjustment_not_twice (w w' : world) i j st user :
  let form := walletAdjustment st in
  WalletAdjustment.userId form <> "" ->
  WalletAdjustment.amount form <> "" ->
  selected st = Some user ->
  succeeded
    (w i _ (mutate (update_eq profiles (patch_wallet_balance (newBalance form user))
                      "id" (WalletAdjustment.userId form)))) = true ->
  let st' := final (run w (handleWalletAdjustment toLocaleString st) i st) in
  trace (run w' (handleWalletAdjustment toLocaleString st') j st')
  = [Told (toast invalid_adjustment)].
Proof.
  intros form H1 H2 Hu Hs st'. apply is_empty_false in H1, H2.
  unfold selected in Hu.
  assert (E : walletAdjustment st' = WalletAdjustment.initial).
  { subst st' form. revert Hs.
    unfold handleWalletAdjustment. cbv zeta. rewrite H1, H2, Hu. step.
    repeat answer; step; rewrite ?Heqo; try discriminate; intros _.
    refresh. apply fetchData_keeps_forms. }
  unfold handleWalletAdjustment at 1. cbv zeta. rewrite E. reflexivity.
Qed.

End AfterTheWrite.

Lemma handleWalletAdjustment_after_update_witness :
  walletAdjustment
    (final (run quiet (handleWalletAdjustment plain (with_wallet_form credit)) 0
              (with_wallet_form credit)))
  = WalletAdjustment.initial
  /\ final (run (failing_at 0) (handleWalletAdjustment plain (with_wallet_form credit)) 0
              (with_wallet_form credit))
     = with_wallet_form credit.
Proof.
  split.
  - exact (proj2 (proj1 (handleWalletAdjustment_after_update plain quiet 0
                           (with_wallet_form credit) ada
                           ltac:(discriminate) ltac:(discriminate) eq_refl)
                    eq_refl)).
  - exact (proj2 (proj2 (handleWalletAdjustment_after_update plain (failing_at 0) 0
                           (with_wallet_form credit) ada
                           ltac:(discriminate) ltac:(discriminate) eq_refl)
                    eq_refl)).
Defined.

Lemma handlePackageCreate_failure_witness :
  let r := run (failing_at 0) (handlePackageCreate (with_package_form premium)) 0
             (with_package_form premium) in
  toasts (trace r) = [package_failure] /\ packageForm (final r) = premium.
Proof.
  cbv zeta.
  destruct (handlePackageCreate_failure (failing_at 0) 0 (with_package_form premium)
              ltac:(discriminate) ltac:(discriminate) ltac:(discriminate)
              ltac:(discriminate) eq_refl) as ((e & He) & Hf).
  split; [rewrite He | rewrite Hf]; reflexivity.
Defined.

Lemma handlePackageCreate_not_twice_witness :
  let st' := final (run quiet (handlePackageCreate (with_package_form premium)) 0
                      (with_package_form premium)) in
  trace (run quiet (handlePackageCreate st') 4 st') = [Told (toast invalid_package)].
Proof.
  exact (handlePackageCreate_not_twice quiet quiet 0 4 (with_package_form premium)
           ltac:(discriminate) ltac:(discriminate) ltac:(discriminate)
           ltac:(discriminate) eq_refl).
Defined.

Lemma handleWalletAdjustment_not_twice_witness :
  let st' := final (run quiet (handleWalletAdjustment plain (with_wallet_form credit)) 0
                      (with_wallet_form credit)) in
  trace (run quiet (handleWalletAdjustment plain st') 4 st')
  = [Told (toast invalid_adjustment)].
Proof.
  exact (handleWalletAdjustment_not_twice plain quiet quiet 0 4
           (with_wallet_form credit) ada
           ltac:(discriminate) ltac:(discriminate) eq_refl eq_refl).
Defined.

(** ** [fetchData], the other paths *)

(** X9. When the three selects reply and the profiles reply has no error,
    the three collections become what the replies hold (the packages with
    their daily income defaulted, the empty list where a reply has no data),
    the loading flag is cleared, the active tab and the two forms are
    untouched, and nothing is reported, whether or not the packages or the
    withdrawals reply carries an error. *)
Theorem fetchData_success (w : world) i st ur pr wr :
  w i _ the_profiles = Fulfilled ur -> error ur = None ->
  w (1 + i) _ the_packages = Fulfilled pr ->
  w (2 + i) _ the_withdrawals = Fulfilled wr ->
  let r := run w fetchData i st in
  final r
  = {| users := or_empty (data ur);
       packages := or_empty (option_map (map with_daily_income) (data pr));
       withdrawals := or_empty (data wr);
       loading := false;
       activeTab := activeTab st;
       packageForm := packageForm st;
       walletAdjustment := walletAdjustment st |}
  /\ toasts (trace r) = []
  /\ logs error_level (trace r) = [].
Proof.
  intros Hu He Hp Hw. cbn in Hu, Hp, Hw |- *.
  rewrite Hu. cbn. rewrite Hp. cbn. rewrite Hw. cbn. rewrite He. cbn.
  repeat split.
Qed.

Lemma fetchData_success_witness :
  let r := run stocked fetchData 0 initial_dashboard in
  users (final r) = [ada]
  /\ packages (final r) = [with_daily_income starter]
  /\ loading (final r) = false
  /\ toasts (trace r) = [].
Proof.
  cbv zeta.
  destruct (fetchData_success stocked 0 initial_dashboard _ _ _
              eq_refl eq_refl eq_refl eq_refl) as (Hf & Ht & _).
  rewrite Hf. split; [reflexivity | ]. split; [reflexivity | ].
  split; [reflexivity | exact Ht].
Defined.

(** X10. [fetchData] only reads: in every world it requests no mutation,
    asks at least one and at most three questions, starts by raising the
    loading flag, and leaves the active tab and the two forms as they
    were. *)
Theorem fetchData_only_reads (w : world) i st :
  let r := run w fetchData i st in
  mutations (trace r) = []
  /\ 1 <= asked (trace r) <= 3
  /\ (exists rest, trace r = Told (setLoading true) :: rest)
  /\ activeTab (final r) = activeTab st
  /\ packageForm (final r) = packageForm st
  /\ walletAdjustment (final r) = walletAdjustment st.
Proof.
  all_answers; repeat split; cbn; try lia; try reflexivity;
    try (eexists; reflexivity).
Qed.

Lemma with_daily_income_set (pkg : InvestmentPackage.t) :
  daily_income_set (with_daily_income pkg).
Proof.
  unfold daily_income_set, with_daily_income. cbn. eexists. split; [reflexivity | ].
  destruct (InvestmentPackage.daily_income pkg) as [d | ]; [ | reflexivity].
  destruct (JS.truthy d) eqn:T; [ | reflexivity].
  unfold JS.truthy in T. destruct (is_nan d); [discriminate T | reflexivity].
Qed.

(** X11. The packages the page holds have a daily income that is a number:
    [fetchData] keeps that true when it was, and makes it true, whatever the
    store returned, whenever its three selects reply. *)
Theorem fetchData_daily_income (w : world) i st :
  let r := run w fetchData i st in
  (Forall daily_income_set (packages st) ->
   Forall daily_income_set (packages (final r)))
  /\ (forall ur pr wr,
         w i _ the_profiles = Fulfilled ur ->
         w (1 + i) _ the_packages = Fulfilled pr ->
         w (2 + i) _ the_withdrawals = Fulfilled wr ->
         Forall daily_income_set (packages (final r))).
Proof.
  assert (S : forall d, Forall daily_income_set
                          (or_empty (option_map (map with_daily_income) d))).
  { intros [l | ]; cbn; [ | constructor].
    apply Forall_forall. intros p Hp. apply in_map_iff in Hp.
    destruct Hp as (p0 & <- & _). apply with_daily_income_set. }
  split.
  - intros H. all_answers; auto.
  - intros ur pr wr Hu Hp Hw. cbn in Hu, Hp, Hw |- *.
    rewrite Hu. cbn. rewrite Hp. cbn. rewrite Hw. cbn.
    destruct (error ur); cbn; apply S.
Qed.

Lemma fetchData_daily_income_witness :
  Forall daily_income_set (packages (final (run stocked fetchData 0 initial_dashboard)))
  /\ InvestmentPackage.daily_income starter = None.
Proof.
  split; [ | reflexivity].
  exact (proj2 (fetchData_daily_income stocked 0 initial_dashboard) _ _ _
           eq_refl eq_refl eq_refl).
Defined.

(** ** The balance of a debit *)

Module Debit.

Local Open Scope Z_scope.

Lemma binary_normalize_positive m e :
  0 < m -> has_sign false (binary_normalize prec emax m e false).
Proof.
  intros H. destruct m as [ | p | p]; try lia. cbn [binary_normalize].
  unfold binary_round. destruct (shl_align p e _) as [mz ez].
  apply Binary64.binary_round_aux_sign. lia.
Qed.

(** The difference of two binary64 numbers, the first above the second,
    has the sign bit clear. *)
Lemma SFsub_positive x y :
  valid_binary x = true -> valid_binary y = true ->
  SFltb y x = true -> has_sign false (SFsub prec emax x y).
Proof.
  intros Vx Vy. unfold SFltb.
  destruct x as [sx | sx | | sx mx ex], y as [sy | sy | | sy my ey]; cbn;
    try discriminate;
    try (destruct sx; try discriminate; try destruct sy; try discriminate;
         reflexivity);
    try (destruct sy; try discriminate; reflexivity).
  cbn in Vx, Vy. intros L. apply binary_normalize_positive.
  rewrite !Binary64.shl_align_le by lia.
  assert (0 < Zpos mx * 2 ^ (ex - Z.min ex ey))
    by (apply Z.mul_pos_pos; [lia | apply Z.pow_pos_nonneg; lia]).
  assert (0 < Zpos my * 2 ^ (ey - Z.min ex ey))
    by (apply Z.mul_pos_pos; [lia | apply Z.pow_pos_nonneg; lia]).
  destruct sx, sy; cbn [cond_Zopp]; try discriminate; try lia.
  - destruct (Z.compare_spec ey ex) as [E | E | E]; try discriminate.
    + subst ey. rewrite Z.min_id, Z.sub_diag, !Z.mul_1_r.
      destruct (Pos.compare_cont Eq my mx) eqn:C; try discriminate.
      change (Pos.compare_cont Eq my mx) with (Pos.compare my mx) in C.
      apply Pos.compare_gt_iff in C. lia.
    + pose proof (Binary64.lower_exponent_smaller _ _ _ _ Vx Vy E).
      rewrite Z.min_l, Z.sub_diag, Z.mul_1_r by lia. lia.
  - destruct (Z.compare_spec ey ex) as [E | E | E]; try discriminate.
    + subst ey. rewrite Z.min_id, Z.sub_diag, !Z.mul_1_r.
      change (Pos.compare_cont Eq my mx) with (Pos.compare my mx) in L.
      destruct (Pos.compare_spec my mx); try discriminate. lia.
    + pose proof (Binary64.lower_exponent_smaller _ _ _ _ Vy Vx E).
      rewrite Z.min_r, Z.sub_diag, Z.mul_1_r by lia. lia.
Qed.

(** A number with the sign bit clear is [+0] or an ordinary number above
    zero. *)
Lemma positive_or_zero d :
  has_sign false d ->
  d = S754_zero false \/ (SFeqb d d = true /\ SFltb (S754_zero false) d = true).
Proof.
  destruct d as [s | s | | s m e]; cbn; try tauto; intros ->; auto.
  right. split; [ | reflexivity].
  unfold SFeqb. cbn. rewrite Z.compare_refl, Pos.compare_cont_refl. reflexivity.
Qed.

(** [Math.max(0, x)] spelled out. *)
Lemma Math_max_0 (x : float) :
  JS.Math_max 0%float x
  = if is_nan x then nan else if (0 <? x)%float then x else 0%float.
Proof. reflexivity. Qed.

Lemma above_zero_not_below (x : float) :
  (0 <? x)%float = true -> (x <? 0)%float = false.
Proof.
  rewrite !ltb_spec. change (Prim2SF 0) with (S754_zero false).
  destruct (Prim2SF x) as [s | s | | s m e]; cbn; try discriminate;
    destruct s; cbn; try discriminate; reflexivity.
Qed.

Lemma Math_max_0_not_below (x : float) :
  (JS.Math_max 0%float x <? 0)%float = false.
Proof.
  rewrite Math_max_0. destruct (is_nan x); [reflexivity | ].
  destruct (0 <? x)%float eqn:P; [ | reflexivity].
  apply above_zero_not_below, P.
Qed.

Lemma Math_max_0_keeps (c a : float) :
  (a <? c)%float = true -> JS.Math_max 0%float (c - a)%float = (c - a)%float.
Proof.
  intros H. rewrite ltb_spec in H.
  pose proof (SFsub_positive _ _ (Prim2SF_valid c) (Prim2SF_valid a) H) as S.
  change (SFsub prec emax) with SF64sub in S. rewrite <- sub_spec in S.
  rewrite Math_max_0.
  destruct (positive_or_zero _ S) as [Z | [E L]].
  - assert (F : (c - a)%float = 0%float) by (apply Prim2SF_inj; exact Z).
    rewrite F. reflexivity.
  - rewrite <- eqb_spec in E. rewrite <- (ltb_spec 0) in L.
    unfold is_nan. rewrite E, L. reflexivity.
Qed.

End Debit.

(** X7. A debit never writes a balance below zero: for [subtract], whatever
    the balance of the user and the text of the amount, the balance
    computed is not less than 0 (it is [NaN] when the difference is). *)
Theorem debit_never_below_zero (form : WalletAdjustment.t) (user : Profile.t) :
  WalletAdjustment.type form = WalletAdjustment.subtract ->
  (newBalance form user <? 0)%float = false.
Proof.
  intros Ht. unfold newBalance. rewrite Ht. apply Debit.Math_max_0_not_below.
Qed.

Lemma debit_never_below_zero_witness :
  (newBalance overdraw ada <? 0)%float = false
  /\ (newBalance unreadable ada <? 0)%float = false.
Proof.
  split; apply debit_never_below_zero; reflexivity.
Defined.

(** X8. A debit smaller than the balance is not clamped: for [subtract]
    with [a < current], [a] being [parseFloat] of the amount, the balance
    computed is exactly the binary64 difference [current - a]. *)
Theorem debit_within_balance (form : WalletAdjustment.t) (user : Profile.t) :
  WalletAdjustment.type form = WalletAdjustment.subtract ->
  (JS.parseFloat (WalletAdjustment.amount form) <? Profile.wallet_balance user)%float
  = true ->
  newBalance form user
  = (Profile.wallet_balance user - JS.parseFloat (WalletAdjustment.amount form))%float.
Proof.
  intros Ht Hlt. unfold newBalance. rewrite Ht. apply Debit.Math_max_0_keeps, Hlt.
Qed.

Lemma debit_within_balance_witness : newBalance debit ada = 7500%float.
Proof.
  rewrite (debit_within_balance debit ada eq_refl eq_refl). reflexivity.
Defined.

(** ** The counts and the tables *)

Lemma filter_length_ext {A} (f g : A -> bool) (l : list A) :
  (forall a, f a = g a) -> List.length (filter f l) = List.length (filter g l).
Proof.
  intros H. induction l as [ | a l IH]; cbn; [reflexivity | ].
  rewrite H. destruct (g a); cbn; congruence.
Qed.

Lemma active_or_not {A} (f : A -> bool) (l : list A) :
  List.length l
  = (List.length (filter f l) + List.length (filter (fun a => negb (f a)) l))%nat.
Proof.
  induction l as [ | a l IH]; cbn; [reflexivity | ].
  destruct (f a); cbn; lia.
Qed.

(** X13. The counts of the header agree with the rows of the tables: the
    active users are the rows whose badge reads "Active", the pending
    withdrawals are the rows that show the two decision buttons, and the
    total of users is the active ones plus the rows whose badge reads
    "Pending Approval".  A row shows the buttons exactly when its status is
    "pending". *)
Theorem stats_agree_with_rows (st : Dashboard) :
  activeUsers (stats st)
  = List.length (filter (fun u => (user_badge u =? "Active")%string) (users st))
  /\ pendingWithdrawals (stats st)
     = List.length (filter (fun w => match withdrawal_buttons w with
                                     | [] => false
                                     | _ => true
                                     end) (withdrawals st))
  /\ totalUsers (stats st)
     = (activeUsers (stats st)
        + List.length (filter (fun u => (user_badge u =? "Pending Approval")%string)
                         (users st)))%nat
  /\ (forall row,
         withdrawal_buttons row = [approve; reject]
         <-> WithdrawalRequest.status row = "pending")
  /\ (forall row,
         withdrawal_buttons row = []
         <-> WithdrawalRequest.status row <> "pending").
Proof.
  unfold stats. cbn. split; [ | split; [ | split; [ | split]]].
  - apply filter_length_ext. intros u. unfold user_badge.
    destruct (Profile.is_active u); reflexivity.
  - apply filter_length_ext. intros w. unfold withdrawal_buttons.
    destruct (_ =? _)%string; reflexivity.
  - rewrite (active_or_not (fun u => Profile.is_active u) (users st)). f_equal.
    apply filter_length_ext. intros u. unfold user_badge.
    destruct (Profile.is_active u); reflexivity.
  - intros row. unfold withdrawal_buttons.
    destruct (String.eqb_spec (WithdrawalRequest.status row) "pending");
      split; intros H; try reflexivity; try discriminate H; congruence.
  - intros row. unfold withdrawal_buttons.
    destruct (String.eqb_spec (WithdrawalRequest.status row) "pending");
      split; intros H; try reflexivity; try discriminate H; congruence.
Qed.

(** X14. A decision ends the offer of decisions: the status that
    [handleWithdrawalAction] writes, for either decision and in every world,
    is one for which a row shows no button, and its badge is the default
    one after [approve] and the destructive one after [reject]. *)
Theorem decided_rows_show_no_button (w : world) i st withdrawalId a :
  exists status processed_at s,
    mutations (trace (run w (handleWithdrawalAction withdrawalId a) i st))
    = [(update_eq withdrawal_requests (patch_status status processed_at) "id"
          withdrawalId, s)]
    /\ forall row,
        WithdrawalRequest.status row = status ->
        withdrawal_buttons row = []
        /\ withdrawal_badge row
           = match a with approve => "default" | reject => "destructive" end.
Proof.
  exists match a with approve => "approved" | reject => "rejected" end.
  exists (w i _ Date_toISOString).
  exists (w (1 + i) _
            (mutate (update_eq withdrawal_requests
                       (patch_status
                          match a with approve => "approved" | reject => "rejected" end
                          (w i _ Date_toISOString))
                       "id" withdrawalId))).
  split.
  - step. repeat answer; refresh; reflexivity.
  - intros row Hs. unfold withdrawal_buttons, withdrawal_badge. rewrite Hs.
    destruct a; split; reflexivity.
Qed.

(** ** The handlers of the [is_active] flag *)

(** A program of the page runs the same among the wider requests. *)
Lemma run_of_prog {R} (p : prog R) (w : Flags.world) i st :
  Flags.run w (Flags.of_prog p) i st
  = {| Flags.events := map Flags.of_event (trace (run (Flags.page_world w) p i st));
       Flags.state := final (run (Flags.page_world w) p i st);
       Flags.completed := outcome (run (Flags.page_world w) p i st) |}.
Proof.
  revert i st. induction p as [r | e | c k IH | X q k IH]; intros i st; cbn.
  - reflexivity.
  - reflexivity.
  - rewrite IH. reflexivity.
  - rewrite IH. reflexivity.
Qed.

Lemma flags_of_events (tr : list event) : Flags.flags (map Flags.of_event tr) = [].
Proof.
  induction tr as [ | [c | X q x] tr IH]; cbn; auto.
Qed.

Lemma flags_run_try_catch_fetchData (w : Flags.world) h i st :
  Flags.run w (Flags.try_catch (Flags.of_prog fetchData) h) i st
  = Flags.run w (Flags.of_prog fetchData) i st.
Proof. unfold fetchData. cbn. repeat answer; reflexivity. Qed.

Ltac flag_step := cbn -[fetchData String.append]; unfold Flags.throw_if_error.

Ltac flag_answer :=
  match goal with
  | |- context [match ?w ?i ?X ?q with _ => _ end] => destruct (w i X q) eqn:?
  | |- context [match error ?r with _ => _ end] => destruct (error r) eqn:?
  end; flag_step.

Ltac flag_refresh :=
  rewrite ?flags_run_try_catch_fetchData, ?run_of_prog; flag_step;
  rewrite ?fetchData_returns;
  repeat match goal with
    | |- context [pick Flags.flag_of (map Flags.of_event ?t)] =>
        change (pick Flags.flag_of (map Flags.of_event t))
          with (Flags.flags (map Flags.of_event t));
        rewrite (flags_of_events t)
    end.

Lemma handleUserActivation_flags (w : Flags.world) i st userId activate :
  Flags.flags (Flags.events (Flags.run w (Flags.handleUserActivation userId activate)
                               i st))
  = [(profiles, activate, "id", userId,
      w i _ (Flags.update_is_active profiles activate "id" userId))].
Proof. flag_step. repeat flag_answer; flag_refresh; reflexivity. Qed.

Lemma handlePackageToggle_flags (w : Flags.world) i st packageId isActive :
  Flags.flags (Flags.events (Flags.run w (Flags.handlePackageToggle packageId isActive)
                               i st))
  = [(investment_packages, negb isActive, "id", packageId,
      w i _ (Flags.update_is_active investment_packages (negb isActive) "id"
               packageId))].
Proof. flag_step. repeat flag_answer; flag_refresh; reflexivity. Qed.

(** X15. [handleUserActivation] writes one flag, the one it is given, on the
    profile with the id it is given, and returns normally in every world.
    When the update succeeds it shows "User Activated" or "User Deactivated"
    and then does what [fetchData] does; when it does not, the error is
    written to [console.error], the failure toast is shown, [fetchData] is
    not run and the state is unchanged. *)
Theorem handleUserActivation_writes_flag (w : Flags.world) i st userId activate :
  let r := Flags.run w (Flags.handleUserActivation userId activate) i st in
  let update := Flags.update_is_active profiles activate "id" userId in
  let s := w i _ update in
  Flags.flags (Flags.events r) = [(profiles, activate, "id", userId, s)]
  /\ Flags.completed r = Returned tt
  /\ (succeeded s = true ->
      Flags.events r
      = [Flags.Answered update s;
         Flags.Said (toast (Flags.user_status_changed activate))]
          ++ map Flags.of_event
               (trace (run (Flags.page_world w) fetchData (1 + i) st)))
  /\ (succeeded s = false ->
      (exists e,
          Flags.events r
          = [Flags.Answered update s;
             Flags.Said (console error_level "Error updating user:"
                           (Some (logged_error (Some e))));
             Flags.Said (toast Flags.user_status_failure)])
      /\ Flags.state r = st).
Proof.
  flag_step. repeat flag_answer; flag_refresh; rewrite ?Heqo; repeat split;
    try discriminate; try reflexivity; eexists; reflexivity.
Qed.

Lemma handleUserActivation_writes_flag_witness :
  Flags.events (Flags.run (Flags.over quiet false)
                  (Flags.handleUserActivation "u1" true) 0 initial_dashboard)
  = [Flags.Answered (Flags.update_is_active profiles true "id" "u1")
       (Fulfilled {| data := None; error := None |});
     Flags.Said (toast (Flags.user_status_changed true))]
      ++ map Flags.of_event (trace (run quiet fetchData 1 initial_dashboard))
  /\ Flags.state (Flags.run (Flags.over quiet true)
                    (Flags.handleUserActivation "u1" true) 0 initial_dashboard)
     = initial_dashboard.
Proof.
  split.
  - exact (proj1 (proj2 (proj2 (handleUserActivation_writes_flag
                                  (Flags.over quiet false) 0 initial_dashboard
                                  "u1" true))) eq_refl).
  - exact (proj2 (proj2 (proj2 (proj2 (handleUserActivation_writes_flag
                                         (Flags.over quiet true) 0 initial_dashboard
                                         "u1" true))) eq_refl)).
Defined.

(** X16. [handlePackageToggle] writes one flag, the opposite of the one it
    is given, on the package with the id it is given, and returns normally
    in every world.  When the update succeeds it shows "Package Activated"
    or "Package Deactivated", after the flag written, and then does what
    [fetchData] does; when it does not, the error is written to
    [console.error], the failure toast is shown, [fetchData] is not run and
    the state is unchanged. *)
Theorem handlePackageToggle_flips_flag (w : Flags.world) i st packageId isActive :
  let r := Flags.run w (Flags.handlePackageToggle packageId isActive) i st in
  let update :=
    Flags.update_is_active investment_packages (negb isActive) "id" packageId in
  let s := w i _ update in
  Flags.flags (Flags.events r)
  = [(investment_packages, negb isActive, "id", packageId, s)]
  /\ Flags.completed r = Returned tt
  /\ (succeeded s = true ->
      Flags.events r
      = [Flags.Answered update s;
         Flags.Said
           (toast {| title := if isActive then "Package Deactivated"
                              else "Package Activated";
                     description := if isActive
                                    then "The package has been deactivated."
                                    else "The package has been activated.";
                     variant := None |})]
          ++ map Flags.of_event
               (trace (run (Flags.page_world w) fetchData (1 + i) st)))
  /\ (succeeded s = false ->
      (exists e,
          Flags.events r
          = [Flags.Answered update s;
             Flags.Said (console error_level "Error toggling package:"
                           (Some (logged_error (Some e))));
             Flags.Said (toast Flags.package_toggle_failure)])
      /\ Flags.state r = st).
Proof.
  flag_step. repeat flag_answer; flag_refresh; rewrite ?Heqo; repeat split;
    try discriminate; try (destruct isActive; reflexivity); eexists; reflexivity.
Qed.

Lemma handlePackageToggle_flips_flag_witness :
  Flags.flags (Flags.events (Flags.run (Flags.over quiet false)
                               (Flags.handlePackageToggle "p1" true) 0
                               initial_dashboard))
  = [(investment_packages, false, "id", "p1",
      Fulfilled {| data := None; error := None |})]
  /\ Flags.state (Flags.run (Flags.over quiet true)
                    (Flags.handlePackageToggle "p1" true) 0 initial_dashboard)
     = initial_dashboard.
Proof.
  split.
  - exact (proj1 (handlePackageToggle_flips_flag (Flags.over quiet false) 0
                    initial_dashboard "p1" true)).
  - exact (proj2 (proj2 (proj2 (proj2 (handlePackageToggle_flips_flag
                                         (Flags.over quiet true) 0 initial_dashboard
                                         "p1" true))) eq_refl)).
Defined.

(** X17. The buttons do what their labels say, in every world.  The button
    of a user row, labelled "Approve" for a user that is not active and
    "Deactivate" for one that is, writes the opposite of the flag of the
    row on that profile; the toggle of a package card, labelled "Activate"
    or "Deactivate", writes the opposite of the flag of the card on that
    package.  So a second click, on the row as the first one left it in the
    store, writes the first flag back. *)
Theorem flag_buttons_flip (w : Flags.world) i st :
  (forall user,
      map fst (Flags.flags (Flags.events (Flags.run w (Flags.user_button_click user) i st)))
      = [(profiles, negb (Profile.is_active user), "id", Profile.id user)]
      /\ Flags.user_button_label user
         = if negb (Profile.is_active user) then "Approve" else "Deactivate")
  /\ (forall pkg,
         map fst (Flags.flags
                    (Flags.events (Flags.run w (Flags.package_toggle_click pkg) i st)))
         = [(investment_packages, negb (InvestmentPackage.is_active pkg), "id",
             InvestmentPackage.id pkg)]
         /\ Flags.package_toggle_label pkg
            = if negb (InvestmentPackage.is_active pkg) then "Activate"
              else "Deactivate")
  /\ (forall packageId isActive w' j st',
         map fst (Flags.flags
                    (Flags.events
                       (Flags.run w' (Flags.handlePackageToggle packageId
                                        (negb isActive)) j st')))
         = [(investment_packages, isActive, "id", packageId)]).
Proof.
  split; [ | split].
  - intros user. unfold Flags.user_button_click, Flags.user_button_label. split.
    + rewrite (handleUserActivation_flags w i st _ _). reflexivity.
    + destruct (Profile.is_active user); reflexivity.
  - intros pkg. unfold Flags.package_toggle_click, Flags.package_toggle_label. split.
    + rewrite (handlePackageToggle_flags w i st _ _). reflexivity.
    + destruct (InvestmentPackage.is_active pkg); reflexivity.
  - intros packageId isActive w' j st'.
    rewrite (handlePackageToggle_flags w' j st' _ _), negb_involutive. reflexivity.
Qed.

(** ** [fetchData], one select after another *)

(** X19. [fetchData] asks its selects one after another, profiles, then
    packages, then withdrawals, each only once the one before was
    fulfilled: a rejected select is the last one asked. *)
Theorem fetchData_selects_in_turn (w : world) i st :
  let order := selects (trace (run w fetchData i st)) in
  order = [(profiles, false)]
  \/ order = [(profiles, true); (investment_packages, false)]
  \/ exists fulfilled,
      order = [(profiles, true); (investment_packages, true);
               (withdrawal_requests, fulfilled)].
Proof.
  all_answers; cbn; auto; right; right; eexists; reflexivity.
Qed.

(** X20. [fetchData] replaces the three collections together or not at
    all: in every world either the three are as they were, or the three
    selects were fulfilled and each collection is what its reply holds. *)
Theorem fetchData_all_or_nothing (w : world) i st :
  let r := run w fetchData i st in
  (users (final r) = users st
   /\ packages (final r) = packages st
   /\ withdrawals (final r) = withdrawals st)
  \/ (exists ur pr wr,
         w i _ the_profiles = Fulfilled ur
         /\ w (1 + i) _ the_packages = Fulfilled pr
         /\ w (2 + i) _ the_withdrawals = Fulfilled wr
         /\ users (final r) = or_empty (data ur)
         /\ packages (final r) = or_empty (option_map (map with_daily_income) (data pr))
         /\ withdrawals (final r) = or_empty (data wr)).
Proof.
  cbn.
  destruct (w i _ _) as [ur | e] eqn:Hu; cbn; [ | left; repeat split].
  destruct (w (S i) _ _) as [pr | e] eqn:Hp; cbn; [ | left; repeat split].
  destruct (w (S (S i)) _ _) as [wr | e] eqn:Hw; cbn; [ | left; repeat split].
  right. exists ur, pr, wr. destruct (error ur); cbn; repeat split.
Qed.

(** ** The words of the withdrawal toast *)

(** X21. After a decision that the store accepts, the toast reads
    "Withdrawal Approved" with "The withdrawal request has been approved."
    for [approve], and "Withdrawal Rejected" with "The withdrawal request
    has been rejectd." for [reject]: the description adds a "d" to the name
    of the decision. *)
Theorem handleWithdrawalAction_toast (w : world) i st withdrawalId a :
  (forall m s, In (m, s) (mutations (trace (run w (handleWithdrawalAction withdrawalId a)
                                              i st))) ->
               succeeded s = true) ->
  exists rest,
    toasts (trace (run w (handleWithdrawalAction withdrawalId a) i st))
    = {| title := match a with
                  | approve => "Withdrawal Approved"
                  | reject => "Withdrawal Rejected"
                  end;
         description := match a with
                        | approve => "The withdrawal request has been approved."
                        | reject => "The withdrawal request has been rejectd."
                        end;
         variant := None |} :: rest.
Proof.
  step. repeat answer; refresh; intros H.
  all: try (specialize (H _ _ (or_introl eq_refl)); cbn in H; rewrite ?Heqo in H;
            discriminate H).
  destruct a; eexists; reflexivity.
Qed.

Lemma handleWithdrawalAction_toast_witness :
  toasts (trace (run quiet (handleWithdrawalAction "w7" reject) 0 initial_dashboard))
  = [{| title := "Withdrawal Rejected";
        description := "The withdrawal request has been rejectd.";
        variant := None |}].
Proof.
  destruct (handleWithdrawalAction_toast quiet 0 initial_dashboard "w7" reject)
    as [rest H].
  - intros m s [E | []]. injection E as _ <-. reflexivity.
  - rewrite H. vm_compute in H. injection H as <-. reflexivity.
Defined.

Lemma stats_agree_with_rows_witness :
  pendingWithdrawals (stats with_withdrawals) = 1%nat
  /\ withdrawal_buttons (withdrawal_of_ada "w7" "pending") = [approve; reject]
  /\ withdrawal_buttons (withdrawal_of_ada "w6" "approved") = [].
Proof.
  destruct (stats_agree_with_rows with_withdrawals) as (_ & Hp & _ & Hb & Hn).
  split; [rewrite Hp; reflexivity | ]. split.
  - apply Hb. reflexivity.
  - apply Hn. discriminate.
Defined.

Lemma decided_rows_show_no_button_witness :
  withdrawal_buttons (withdrawal_of_ada "w7" "approved") = []
  /\ withdrawal_badge (withdrawal_of_ada "w7" "approved") = "default".
Proof.
  destruct (decided_rows_show_no_button quiet 0 with_withdrawals "w7" approve)
    as (status & processed_at & s & Hm & Hrow).
  apply Hrow. vm_compute in Hm. injection Hm as <- _ _. reflexivity.
Defined.
